(** * The code-execution pipeline ([run-code/index.js]) and the Java runner

    A shallow embedding of the two runners of the repository.

    Both are event driven: a promise executor spawns a child process,
    registers callbacks and arms a timer; afterwards Node's event loop
    calls the callbacks.  The embedding keeps the callbacks as functions
    on the variables they close over ([isResolved], the accumulated
    texts, the promise) and lets the surrounding world choose the order of
    the events.  Calls that leave the program ([spawn], [kill],
    [clearTimeout], the artifact store, ...) are recorded, in order, in a
    log of effects.

    What the source guards with [try]/[catch] is modelled with both of its
    outcomes, the world choosing.

    The pipeline is modelled in two layers.  [Compile], [Execute] and
    [runCode] are the promises and the async function in a host process
    that stays alive and whose compiler gets spawned: they say what the
    callbacks do with the events they are registered for.  [runCodeHost]
    adds what no callback of the source catches: a [spawn] of the compiler
    that throws inside the [try] of line 28, and the [error] event of the
    child's stdin after a failed write, for which no listener is
    registered and which ends the host process.  The Java runner registers
    no listener for the [error] event of its child: there the event ends
    the host process too. *)

From Stdlib Require Import String Ascii List ZArith Bool Lia DecimalString.
Import ListNotations.
Open Scope string_scope.

(** ** JavaScript values used by the runners *)

(** [s] in a boolean position: the empty string is falsy. *)
Definition truthy (s : string) : bool := negb (s =? "").

(** An optional string ([undefined], [null] or a string) in a boolean
    position. *)
Definition truthy_opt (o : option string) : bool :=
  match o with
  | Some s => truthy s
  | None => false
  end.

(** [a || b] on strings. *)
Definition js_or (a b : string) : string := if truthy a then a else b.

(** [l.includes(x)] *)
Definition includes (x : string) (l : list string) : bool :=
  existsb (String.eqb x) l.

(** [l.join(sep)] *)
Definition join (sep : string) (l : list string) : string :=
  String.concat sep l.

(** The text of an integer inside a string concatenation. *)
Definition number_toString (z : Z) : string :=
  NilZero.string_of_int (Z.to_int z).

(** The line feed written [\n] in the source. *)
Definition nl : string := String (ascii_of_nat 10) EmptyString.

(** [args || []] *)
Definition args_or_empty (a : option (list string)) : list string :=
  match a with
  | Some l => l
  | None => []
  end.

(** ** Events and effects *)

(** What the event loop can deliver to the callbacks of one child process.
    [code] is [None] for [null] (the child was ended by a signal). *)
Inductive event : Type :=
| StdoutData (data : string)
| StderrData (data : string)
| ErrorEv (message : string)
| ExitEv (code : option Z) (signal : option string)
| CloseEv (code : option Z) (signal : option string)
| TimerEv.

Inductive phase : Type := CompilePhase | ExecutePhase.

(** Calls that leave the program, tagged with the phase of the call site.
    [timeoutOption] is the [timeout] option passed to [spawn], if any. *)
Inductive effect : Type :=
| EffCreateCodeFile (language code : string)
| EffSpawn (ph : phase) (command : string) (args : list string)
           (timeoutOption : option Z)
| EffSetTimeout (ph : phase) (ms : Z)
| EffClearTimeout (ph : phase)
| EffKill (ph : phase) (signal : string)
| EffStdinWrite (data : string)
| EffStdinEnd
| EffRemoveCodeFile (jobID language : string) (outputExt : option string)
| EffInfo (language : string).

(** Text written to stdout, resp. stderr, in a run of events. *)
Fixpoint stdout_of (evs : list event) : string :=
  match evs with
  | [] => ""
  | StdoutData d :: evs' => d ++ stdout_of evs'
  | _ :: evs' => stdout_of evs'
  end.

Fixpoint stderr_of (evs : list event) : string :=
  match evs with
  | [] => ""
  | StderrData d :: evs' => d ++ stderr_of evs'
  | _ :: evs' => stderr_of evs'
  end.

(** ** Promises

    A promise is settled by the first call of [resolve] or [reject]; later
    calls are ignored by the promise itself.  [calls] counts every call the
    program makes, so that "settled exactly once" can be told apart from
    "settled once, called twice". *)
Record promise (V : Type) : Type := mkPromise {
  settled : option V;
  calls : nat
}.
Arguments mkPromise {V} _ _.
Arguments settled {V} _.
Arguments calls {V} _.

Definition pending {V : Type} : promise V := mkPromise None 0.

Definition settle {V : Type} (v : V) (p : promise V) : promise V :=
  mkPromise (match settled p with Some w => Some w | None => Some v end)
            (S (calls p)).

(** ** The objects passed around by [run-code/index.js] *)

Record job : Type := mkJob {
  language : string;
  code : string;
  input : string
}.

(** The object returned by [commandMap(jobID, language)]. *)
Record commandSpec : Type := mkCommandSpec {
  compileCodeCommand : option string;
  compilationArgs : option (list string);
  executeCodeCommand : option string;
  executionArgs : option (list string);
  outputExt : option string
}.

(** The object thrown by the validation. *)
Record thrown : Type := mkThrown {
  t_status : Z;
  t_error : string
}.

(** The object the compile promise is rejected with. *)
Record compileResult : Type := mkCompileResult {
  cr_status : Z;
  cr_output : string;
  cr_error : string;
  cr_language : string
}.

(** The object the execute promise is resolved with. *)
Record execResult : Type := mkExecResult {
  r_output : string;
  r_error : string
}.

(** The object [runCode] returns; [status] is absent on the execute path. *)
Record response (Metadata : Type) : Type := mkResponse {
  status : option Z;
  output : string;
  error : string;
  resp_language : string;
  resp_info : Metadata
}.
Arguments mkResponse {Metadata} _ _ _ _ _.
Arguments status {Metadata} _.
Arguments output {Metadata} _.
Arguments error {Metadata} _.
Arguments resp_language {Metadata} _.
Arguments resp_info {Metadata} _.

(** ** Compile phase: the promise of lines 29-87 *)
Module Compile.

Inductive settlement : Type :=
| Resolved
| Rejected (r : compileResult).

Record state : Type := mkState {
  compileError : string;
  compileOutput : string;
  isResolved : bool;
  timerArmed : bool;
  outcome : promise settlement;
  log : list effect
}.

Definition set_isResolved (st : state) : state :=
  mkState (compileError st) (compileOutput st) true (timerArmed st)
          (outcome st) (log st).

Definition emit (e : effect) (st : state) : state :=
  mkState (compileError st) (compileOutput st) (isResolved st)
          (timerArmed st) (outcome st) (log st ++ [e]).

Definition disarm (st : state) : state :=
  mkState (compileError st) (compileOutput st) (isResolved st) false
          (outcome st) (log st).

Definition clearTimeout (st : state) : state :=
  emit (EffClearTimeout CompilePhase) (disarm st).

Definition reject (r : compileResult) (st : state) : state :=
  mkState (compileError st) (compileOutput st) (isResolved st)
          (timerArmed st) (settle (Rejected r) (outcome st)) (log st).

Definition resolve (st : state) : state :=
  mkState (compileError st) (compileOutput st) (isResolved st)
          (timerArmed st) (settle Resolved (outcome st)) (log st).

(** The state once the executor has run and [spawn] has returned a
    child: the 5000 ms timer is armed.  A [spawn] that throws is handled
    by [runCodeHost]. *)
Definition executor (command : string) (args : option (list string)) : state :=
  mkState "" "" false true pending
          [EffSpawn CompilePhase command (args_or_empty args) None;
           EffSetTimeout CompilePhase 5000].

(** The callback of [setTimeout]. *)
Definition onTimer (language : string) (st : state) : state :=
  if isResolved st then st
  else
    reject (mkCompileResult 200 "" "Compilation timed out" language)
           (emit (EffKill CompilePhase "SIGKILL") (set_isResolved st)).

Definition onStdout (data : string) (st : state) : state :=
  mkState (compileError st) (compileOutput st ++ data) (isResolved st)
          (timerArmed st) (outcome st) (log st).

Definition onStderr (data : string) (st : state) : state :=
  mkState (compileError st ++ data) (compileOutput st) (isResolved st)
          (timerArmed st) (outcome st) (log st).

Definition onError (language : string) (message : string) (st : state) : state :=
  if isResolved st then st
  else
    reject (mkCompileResult 200 "" ("Compilation error: " ++ message) language)
           (clearTimeout (set_isResolved st)).

(** [code !== 0] *)
Definition code_nonzero (code : option Z) : bool :=
  match code with
  | Some c => negb (c =? 0)%Z
  | None => true
  end.

Definition onExit (language : string) (code : option Z) (st : state) : state :=
  if isResolved st then st
  else
    let st1 := clearTimeout (set_isResolved st) in
    if code_nonzero code then
      reject (mkCompileResult 200 ""
                (js_or (compileError st1)
                       (js_or (compileOutput st1) "Compilation failed"))
                language) st1
    else resolve st1.

(** The event loop: it calls the callback registered for the event.  No
    callback is registered for [close]; a timer fires at most once and
    not after [clearTimeout]. *)
Definition deliver (language : string) (st : state) (e : event) : state :=
  match e with
  | StdoutData d => onStdout d st
  | StderrData d => onStderr d st
  | ErrorEv m => onError language m st
  | ExitEv c _ => onExit language c st
  | CloseEv _ _ => st
  | TimerEv => if timerArmed st then onTimer language (disarm st) else st
  end.

(** The events of the child in the order the world delivers them, then
    the deadline: a timer that is still armed fires. *)
Definition run (language command : string) (args : option (list string))
           (evs : list event) : state :=
  deliver language (fold_left (deliver language) evs (executor command args))
          TimerEv.

End Compile.

(** ** Execute phase: the promise of lines 99-187 *)

(** The choices of the world in the execute phase, one per guarded call:
    [spawnThrows] is the message of the error [spawn] throws, if it does;
    the booleans tell whether [kill], [stdin.write] and [stdin.end]
    throw. *)
Record execWorld : Type := mkExecWorld {
  spawnThrows : option string;
  killThrows : bool;
  stdinWriteThrows : bool;
  stdinEndThrows : bool;
  execEvents : list event
}.

Module Execute.

(** [const timeout = 10] *)
Definition timeout : Z := 10.

Record state : Type := mkState {
  output : string;
  error : string;
  isResolved : bool;
  timerArmed : bool;
  outcome : promise execResult;
  log : list effect
}.

Definition set_isResolved (st : state) : state :=
  mkState (output st) (error st) true (timerArmed st) (outcome st) (log st).

Definition emit (e : effect) (st : state) : state :=
  mkState (output st) (error st) (isResolved st) (timerArmed st)
          (outcome st) (log st ++ [e]).

Definition disarm (st : state) : state :=
  mkState (output st) (error st) (isResolved st) false (outcome st) (log st).

Definition clearTimeout (st : state) : state :=
  emit (EffClearTimeout ExecutePhase) (disarm st).

Definition resolve (r : execResult) (st : state) : state :=
  mkState (output st) (error st) (isResolved st) (timerArmed st)
          (settle r (outcome st)) (log st).

Definition set_error (e : string) (st : state) : state :=
  mkState (output st) e (isResolved st) (timerArmed st) (outcome st) (log st).

(** [try { executeCode.kill("SIGKILL") } catch (e) { }]: the call is
    made; if it throws, the empty handler runs and execution goes on. *)
Definition try_kill (throws : bool) (st : state) : state :=
  let st1 := emit (EffKill ExecutePhase "SIGKILL") st in
  if throws then st1 else st1.

(** Lines 151-164: writing the input and closing stdin, each in a
    [try] with an empty handler.  The handler catches what the calls throw;
    a write that fails later, with an [error] event of the stream, is
    handled by [runCodeHost]. *)
Definition write_input (w : execWorld) (input : string) (st : state) : state :=
  if negb (input =? "") then
    let st1 := emit (EffStdinWrite input) st in
    if stdinWriteThrows w then st1
    else
      let st2 := emit EffStdinEnd st1 in
      if stdinEndThrows w then st2 else st2
  else
    let st1 := emit EffStdinEnd st in
    if stdinEndThrows w then st1 else st1.

(** The callback of [setTimeout]. *)
Definition onTimer (w : execWorld) (st : state) : state :=
  if isResolved st then st
  else
    let st1 := try_kill (killThrows w) (set_isResolved st) in
    resolve (mkExecResult (output st1)
               (js_or (error st1) "" ++ nl ++ "Execution timed out after "
                  ++ number_toString timeout ++ " seconds")) st1.

Definition onError (message : string) (st : state) : state :=
  if isResolved st then st
  else
    resolve (mkExecResult "" ("Runtime error: " ++ message))
            (clearTimeout (set_isResolved st)).

Definition onStdout (data : string) (st : state) : state :=
  mkState (output st ++ data) (error st) (isResolved st) (timerArmed st)
          (outcome st) (log st).

Definition onStderr (data : string) (st : state) : state :=
  mkState (output st) (error st ++ data) (isResolved st) (timerArmed st)
          (outcome st) (log st).

Definition onClose (signal : option string) (st : state) : state :=
  if isResolved st then st
  else
    let st1 := clearTimeout (set_isResolved st) in
    let st2 :=
      match signal with
      | Some s =>
          if truthy s
          then set_error (error st1 ++ nl ++ "Process terminated by signal: " ++ s) st1
          else st1
      | None => st1
      end in
    resolve (mkExecResult (output st2) (error st2)) st2.

(** The event loop: no callback is registered for [exit]. *)
Definition deliver (w : execWorld) (st : state) (e : event) : state :=
  match e with
  | StdoutData d => onStdout d st
  | StderrData d => onStderr d st
  | ErrorEv m => onError m st
  | ExitEv _ _ => st
  | CloseEv _ s => onClose s st
  | TimerEv => if timerArmed st then onTimer w (disarm st) else st
  end.

Definition start : state := mkState "" "" false false pending [].

(** The executor, up to the registration of the callbacks.  The second
    component is [false] when the executor has returned early
    ([return resolve(...)]): no callback is registered then. *)
Definition executor (w : execWorld) (spec : commandSpec) (input : string)
  : state * bool :=
  if negb (truthy_opt (executeCodeCommand spec)) then
    (resolve (mkExecResult "" "Executable not found") start, false)
  else
    let command := match executeCodeCommand spec with
                   | Some c => c
                   | None => ""
                   end in
    let st1 := emit (EffSpawn ExecutePhase command
                       (args_or_empty (executionArgs spec))
                       (Some (timeout * 1000)%Z)) start in
    match spawnThrows w with
    | Some message =>
        (resolve (mkExecResult "" ("Runtime error: " ++ message)) st1, false)
    | None =>
        let st2 := emit (EffSetTimeout ExecutePhase (timeout * 1000)) st1 in
        let st3 := mkState (output st2) (error st2) (isResolved st2) true
                           (outcome st2) (log st2) in
        (write_input w input st3, true)
    end.

(** The whole phase: the executor, then (when callbacks are registered)
    the events of the child and the deadline. *)
Definition run (w : execWorld) (spec : commandSpec) (input : string) : state :=
  let '(st, registered) := executor w spec input in
  if registered
  then deliver w (fold_left (deliver w) (execEvents w) st) TimerEv
  else st.

End Execute.

(** ** The pipeline: [runCode] of [run-code/index.js] *)

(** The modules [runCode] requires and that are not part of the core:
    [./instructions] ([commandMap], [supportedLanguages]),
    [../file-system/createCodeFile] and [./info].  [removeCodeFile] returns
    nothing the pipeline uses and is only logged. *)
Record collaborators (Metadata : Type) : Type := mkCollaborators {
  supportedLanguages : list string;
  createCodeFile : string -> string -> string;
  commandMap : string -> string -> commandSpec;
  info : string -> Metadata
}.
Arguments mkCollaborators {Metadata} _ _ _ _.
Arguments supportedLanguages {Metadata} _.
Arguments createCodeFile {Metadata} _ _ _.
Arguments commandMap {Metadata} _ _ _.
Arguments info {Metadata} _ _.

(** The choices of the world in one call of [runCode]. *)
Record world : Type := mkWorld {
  compileEvents : list event;
  execWorldOf : execWorld
}.

(** How a call of the async function ends: it returns, it throws, it is
    still waiting for a promise that nothing settles, or the host process
    has ended under it (an [error] event without a listener is thrown by
    Node and nothing catches it). *)
Inductive completion (A : Type) : Type :=
| Returned (a : A)
| Thrown (t : thrown)
| Waiting
| Died.
Arguments Returned {A} _.
Arguments Thrown {A} _.
Arguments Waiting {A}.
Arguments Died {A}.

(** Computations of the pipeline: they extend the log of effects and
    complete. *)
Definition M (A : Type) : Type := list effect -> completion A * list effect.

Definition ret {A : Type} (a : A) : M A := fun l => (Returned a, l).

Definition throw {A : Type} (t : thrown) : M A := fun l => (Thrown t, l).

Definition bind {A B : Type} (m : M A) (k : A -> M B) : M B :=
  fun l =>
    match m l with
    | (Returned a, l1) => k a l1
    | (Thrown t, l1) => (Thrown t, l1)
    | (Waiting, l1) => (Waiting, l1)
    | (Died, l1) => (Died, l1)
    end.

(** The host process ends: nothing after this point runs. *)
Definition die {A : Type} : M A := fun l => (Died, l).

Definition tell (es : list effect) : M unit := fun l => (Returned tt, (l ++ es)%list).

(** [await p]: the value the promise is settled with. *)
Definition await {V : Type} (p : promise V) : M V :=
  fun l =>
    match settled p with
    | Some v => (Returned v, l)
    | None => (Waiting, l)
    end.

Notation "x <- m ;; k" := (bind m (fun x => k))
  (at level 61, m at next level, right associativity).
Notation "m ;;; k" := (bind m (fun _ => k))
  (at level 61, right associativity).

Section RunCode.

Context {Metadata : Type} (env : collaborators Metadata).

Definition unsupported_message : string :=
  "Please enter a valid language. Check documentation for more details: https://github.com/Jaagrav/CodeX-API#readme. The languages currently supported are: "
    ++ join ", " (supportedLanguages env) ++ ".".

Definition call_createCodeFile (language code : string) : M string :=
  tell [EffCreateCodeFile language code] ;;;
  ret (createCodeFile env language code).

Definition call_removeCodeFile (jobID language : string) (ext : option string)
  : M unit :=
  tell [EffRemoveCodeFile jobID language ext].

Definition call_info (language : string) : M Metadata :=
  tell [EffInfo language] ;;;
  ret (info env language).

(** Lines 27-96 up to the [catch]: [Some r] when the awaited promise is
    rejected with [r], [None] when there is nothing to compile or the
    promise is resolved. *)
Definition compilePhase (w : world) (spec : commandSpec) (language : string)
  : M (option compileResult) :=
  if truthy_opt (compileCodeCommand spec) then
    let command := match compileCodeCommand spec with
                   | Some c => c
                   | None => ""
                   end in
    let st := Compile.run language command (compilationArgs spec)
                          (compileEvents w) in
    tell (Compile.log st) ;;;
    s <- await (Compile.outcome st) ;;
    match s with
    | Compile.Resolved => ret None
    | Compile.Rejected r => ret (Some r)
    end
  else ret None.

(** Lines 99-187. *)
Definition executePhase (w : world) (spec : commandSpec) (input : string)
  : M execResult :=
  let st := Execute.run (execWorldOf w) spec input in
  tell (Execute.log st) ;;;
  await (Execute.outcome st).

Definition runCode (w : world) (j : job) : M (response Metadata) :=
  if code j =? "" then
    throw (mkThrown 400 "No Code found to execute.")
  else if negb (includes (language j) (supportedLanguages env)) then
    throw (mkThrown 400 unsupported_message)
  else
    jobID <- call_createCodeFile (language j) (code j) ;;
    let spec := commandMap env jobID (language j) in
    c <- compilePhase w spec (language j) ;;
    match c with
    | Some compileResult =>
        call_removeCodeFile jobID (language j) (outputExt spec) ;;;
        i <- call_info (language j) ;;
        ret (mkResponse (Some (cr_status compileResult))
                        (cr_output compileResult)
                        (cr_error compileResult)
                        (cr_language compileResult) i)
    | None =>
        result <- executePhase w spec (input j) ;;
        call_removeCodeFile jobID (language j) (outputExt spec) ;;;
        i <- call_info (language j) ;;
        ret (mkResponse None (r_output result) (r_error result)
                        (language j) i)
    end.

End RunCode.

(** ** The Java runner ([executeJava]) *)
Module JavaRunner.

(** [const timeout = 8] *)
Definition timeout : Z := 8.

Inductive settlement : Type :=
| Resolved (outputString : string)
| Rejected (error : string).

Record state : Type := mkState {
  outputString : string;
  errorString : string;
  timerArmed : bool;
  outcome : promise settlement;
  log : list effect;
  hostAlive : bool
}.

Definition emit (e : effect) (st : state) : state :=
  mkState (outputString st) (errorString st) (timerArmed st) (outcome st)
          (log st ++ [e]) (hostAlive st).

Definition reject (e : string) (st : state) : state :=
  mkState (outputString st) (errorString st) (timerArmed st)
          (settle (Rejected e) (outcome st)) (log st) (hostAlive st).

Definition resolve (o : string) (st : state) : state :=
  mkState (outputString st) (errorString st) (timerArmed st)
          (settle (Resolved o) (outcome st)) (log st) (hostAlive st).

Definition disarm (st : state) : state :=
  mkState (outputString st) (errorString st) false (outcome st) (log st)
          (hostAlive st).

(** An [error] event of the child: no listener is registered for it, so
    Node throws it and the host process ends.  The model follows the host
    until the promise is settled: an event that comes later cannot change
    what [runCode] has returned. *)
Definition onUnheardError (st : state) : state :=
  match settled (outcome st) with
  | Some _ => st
  | None =>
      mkState (outputString st) (errorString st) (timerArmed st) (outcome st)
              (log st) false
  end.

Definition timeout_message : string :=
  "Error: Timed Out. Your code took too long to execute, over "
    ++ number_toString timeout ++ " seconds.".

(** The record [runCode] returns: [output] is present on the [try] path,
    [error] on the [catch] path. *)
Record result : Type := mkResult {
  success : bool;
  timestamp : Z;
  output : option string;
  error : option string
}.

Section Runner.

(** [path.join(__dirname, p)] and [new Date()] *)
Variable codePath : string -> string.
Variable now : Z.

Definition executor (codeFile : string) (inputs : option string) : state :=
  let st1 := mkState "" "" false pending
               [EffSpawn ExecutePhase "java" [codePath ("../codes/" ++ codeFile)] None]
               true in
  let st2 := if truthy_opt inputs
             then emit EffStdinEnd
                    (emit (EffStdinWrite (match inputs with
                                          | Some i => i
                                          | None => ""
                                          end)) st1)
             else st1 in
  let st3 := emit (EffSetTimeout ExecutePhase (timeout * 1000)) st2 in
  mkState (outputString st3) (errorString st3) true (outcome st3) (log st3)
          (hostAlive st3).

Definition onStdout (data : string) (st : state) : state :=
  mkState (outputString st ++ data) (errorString st) (timerArmed st)
          (outcome st) (log st) (hostAlive st).

Definition onStderr (data : string) (st : state) : state :=
  mkState (outputString st) (errorString st ++ data) (timerArmed st)
          (outcome st) (log st) (hostAlive st).

(** [if (errorString) reject(errorString); resolve(outputString);] *)
Definition onExit (st : state) : state :=
  let st1 := if truthy (errorString st)
             then reject (errorString st) st
             else st in
  resolve (outputString st1) st1.

(** The callback of [setTimeout]: it rejects, and does nothing else. *)
Definition onTimer (st : state) : state := reject timeout_message st.

(** The event loop.  Listeners are registered for the data of the two
    streams and for [exit]; none for [close], none for [error].  Nothing
    is delivered to a host that has ended. *)
Definition deliver (st : state) (e : event) : state :=
  if hostAlive st then
    match e with
    | StdoutData d => onStdout d st
    | StderrData d => onStderr d st
    | ErrorEv _ => onUnheardError st
    | ExitEv _ _ => onExit st
    | CloseEv _ _ => st
    | TimerEv => if timerArmed st then onTimer (disarm st) else st
    end
  else st.

Definition run (codeFile : string) (inputs : option string)
           (evs : list event) : state :=
  deliver (fold_left deliver evs (executor codeFile inputs)) TimerEv.

Definition runCode (evs : list event) (codeFile : string)
           (inputs : option string) : M result :=
  let st := run codeFile inputs evs in
  tell (log st) ;;;
  if hostAlive st then
    s <- await (outcome st) ;;
    match s with
    | Resolved output => ret (mkResult true now (Some output) None)
    | Rejected error => ret (mkResult false now None (Some error))
    end
  else die.

Definition executeJava (evs : list event) (codeFile : string)
           (inputs : option string) : M result :=
  runCode evs codeFile inputs.

End Runner.

End JavaRunner.

(** ** A concrete registry, used to run the definitions *)

Definition demoCommandMap (jobID language : string) : commandSpec :=
  if language =? "c" then
    mkCommandSpec (Some "gcc") (Some [jobID ++ ".c"; "-o"; jobID ++ ".out"])
                  (Some (jobID ++ ".out")) None (Some "out")
  else if language =? "py" then
    mkCommandSpec None None (Some "python3") (Some [jobID ++ ".py"]) None
  else
    mkCommandSpec None None None None None.

Definition demoEnv : collaborators string :=
  mkCollaborators ["c"; "py"; "txt"]
                  (fun language code => "job1")
                  demoCommandMap
                  (fun language => "about " ++ language).

Definition quietExec (evs : list event) : execWorld :=
  mkExecWorld None false false false evs.

(** Effects of a given kind in a log. *)
Definition is_remove (e : effect) : bool :=
  match e with
  | EffRemoveCodeFile _ _ _ => true
  | _ => false
  end.

Definition is_create (e : effect) : bool :=
  match e with
  | EffCreateCodeFile _ _ => true
  | _ => false
  end.

Definition is_spawn (e : effect) : bool :=
  match e with
  | EffSpawn _ _ _ _ => true
  | _ => false
  end.

Definition is_spawn_in (ph : phase) (e : effect) : bool :=
  match e, ph with
  | EffSpawn CompilePhase _ _ _, CompilePhase => true
  | EffSpawn ExecutePhase _ _ _, ExecutePhase => true
  | _, _ => false
  end.

Definition is_kill (e : effect) : bool :=
  match e with
  | EffKill _ _ => true
  | _ => false
  end.

Definition count (f : effect -> bool) (l : list effect) : nat :=
  length (filter f l).


(** Jobs and worlds the definitions are run on. *)
Definition jobC : job := mkJob "c" "int main(){}" "".
Definition jobPy : job := mkJob "py" "print(input())" "42".
Definition jobTxt : job := mkJob "txt" "hello" "".
Definition jobNoCode : job := mkJob "py" "" "".
Definition jobRuby : job := mkJob "rb" "puts 1" "".

(** The compiler writes [boom] to stderr and exits with code 1. *)
Definition worldCompileExit1 : world :=
  mkWorld [StderrData "boom"; ExitEv (Some 1%Z) None] (quietExec []).

(** The compiler writes [boom] to stderr and is still running when the
    compile timer fires. *)
Definition worldCompileTimeout : world :=
  mkWorld [StderrData "boom"; TimerEv] (quietExec []).

(** The program writes to both streams and is still running when the
    execute timer fires; [close] follows the kill. *)
Definition worldExecTimeout : world :=
  mkWorld [ExitEv (Some 0%Z) None]
          (quietExec [StdoutData "hi"; StderrData "warn"; TimerEv;
                      CloseEv None (Some "SIGKILL")]).

(** The program writes to both streams and exits with code 3. *)
Definition worldExecExit3 : world :=
  mkWorld [] (quietExec [StdoutData "hi"; StderrData "oops";
                         ExitEv (Some 3%Z) None; CloseEv (Some 3%Z) None]).

(** The interpreter is not installed: the child reports [error]. *)
Definition worldSpawnError : world :=
  mkWorld [] (quietExec [ErrorEv "spawn python3 ENOENT"; CloseEv (Some (-2)%Z) None]).

(** A Java program that writes to both streams and exits with code 1, and
    one that never exits. *)
Definition javaExit1 : list event :=
  [StdoutData "partial"; StderrData "warning"; ExitEv (Some 1%Z) None].

Definition javaLoop : list event := [StdoutData "tick"].

(** ** The host process of [run-code/index.js] *)

(** A JavaScript object, as the list of its own enumerable properties with
    their values printed. *)
Definition jsObject : Type := list (string * string).

(** The choices of the world that no callback of the source sees.
    [compileSpawnThrows]: the [spawn] of line 30 throws this Error; the
    object lists its own enumerable properties ([code], and for a system
    error [errno], [syscall], [path], [spawnargs]; [message] and [stack]
    are not enumerable).  [stdinErrorAfter]: the write of line 153 fails
    after it has returned, and the [error] event of [executeCode.stdin]
    arrives when that many events of the child have been delivered. *)
Record hostWorld : Type := mkHostWorld {
  compileSpawnThrows : option jsObject;
  stdinErrorAfter : option nat;
  worldOf : world
}.

(** What the [catch] of line 88 receives: a rejection object of lines
    40-81, or the Error thrown inside the executor. *)
Inductive caught : Type :=
| CaughtResult (r : compileResult)
| CaughtError (err : jsObject).

(** The object [runCode] returns: one the pipeline builds field by field,
    or [{...err, info}] for a caught Error. *)
Inductive hostResponse (Metadata : Type) : Type :=
| Built (r : response Metadata)
| SpreadError (err : jsObject) (i : Metadata).
Arguments Built {Metadata} _.
Arguments SpreadError {Metadata} _ _.

(** A write to the child's stdin was made and returned. *)
Definition stdin_written (w : execWorld) (input : string) : bool :=
  negb (input =? "") && negb (stdinWriteThrows w).

(** The execute promise in the host.  Without an [error] event of stdin
    it runs as [Execute.run].  With one, the events of the child that come
    before it are delivered; if the promise is still pending then, the
    event, which has no listener, ends the host process ([false] in the
    second component) and nothing further runs.  The model follows the
    host until the promise is settled: an [error] event of stdin that
    comes later is not followed. *)
Definition hostExecuteRun (hw : hostWorld) (spec : commandSpec) (input : string)
  : Execute.state * bool :=
  let w := execWorldOf (worldOf hw) in
  let '(st, registered) := Execute.executor w spec input in
  match stdinErrorAfter hw with
  | Some n =>
      if registered && stdin_written w input then
        let st1 := fold_left (Execute.deliver w) (firstn n (execEvents w)) st in
        if Execute.isResolved st1
        then (Execute.run w spec input, true)
        else (st1, false)
      else (Execute.run w spec input, true)
  | None => (Execute.run w spec input, true)
  end.

Section RunCodeHost.

Context {Metadata : Type} (env : collaborators Metadata).

(** Lines 27-96 up to the [catch], in the host: the executor of line 29
    throws when [spawn] does, which rejects the promise with the Error
    before any timer is armed. *)
Definition hostCompilePhase (hw : hostWorld) (spec : commandSpec) (language : string)
  : M (option caught) :=
  if truthy_opt (compileCodeCommand spec) then
    match compileSpawnThrows hw with
    | Some err =>
        let command := match compileCodeCommand spec with
                       | Some c => c
                       | None => ""
                       end in
        tell [EffSpawn CompilePhase command
                (args_or_empty (compilationArgs spec)) None] ;;;
        ret (Some (CaughtError err))
    | None =>
        c <- compilePhase (worldOf hw) spec language ;;
        match c with
        | Some r => ret (Some (CaughtResult r))
        | None => ret None
        end
    end
  else ret None.

(** Lines 99-187, in the host. *)
Definition hostExecutePhase (hw : hostWorld) (spec : commandSpec) (input : string)
  : M execResult :=
  let '(st, alive) := hostExecuteRun hw spec input in
  tell (Execute.log st) ;;;
  if alive then await (Execute.outcome st) else die.

(** [runCode], in the host. *)
Definition runCodeHost (hw : hostWorld) (j : job) : M (hostResponse Metadata) :=
  if code j =? "" then
    throw (mkThrown 400 "No Code found to execute.")
  else if negb (includes (language j) (supportedLanguages env)) then
    throw (mkThrown 400 (unsupported_message env))
  else
    jobID <- call_createCodeFile env (language j) (code j) ;;
    let spec := commandMap env jobID (language j) in
    c <- hostCompilePhase hw spec (language j) ;;
    match c with
    | Some (CaughtResult compileResult) =>
        call_removeCodeFile jobID (language j) (outputExt spec) ;;;
        i <- call_info env (language j) ;;
        ret (Built (mkResponse (Some (cr_status compileResult))
                               (cr_output compileResult)
                               (cr_error compileResult)
                               (cr_language compileResult) i))
    | Some (CaughtError err) =>
        call_removeCodeFile jobID (language j) (outputExt spec) ;;;
        i <- call_info env (language j) ;;
        ret (SpreadError err i)
    | None =>
        result <- hostExecutePhase hw spec (input j) ;;
        call_removeCodeFile jobID (language j) (outputExt spec) ;;;
        i <- call_info env (language j) ;;
        ret (Built (mkResponse None (r_output result) (r_error result)
                               (language j) i))
    end.

End RunCodeHost.

(** A completion of [runCode] seen as one of [runCodeHost]. *)
Definition built {Metadata : Type} (c : completion (response Metadata))
  : completion (hostResponse Metadata) :=
  match c with
  | Returned r => Returned (Built r)
  | Thrown t => Thrown t
  | Waiting => Waiting
  | Died => Died
  end.

(** The host in which the compiler gets spawned and stdin never fails. *)
Definition quietHost (w : world) : hostWorld := mkHostWorld None None w.

(** A C program that does not read its input, and the host in which the
    write of the input fails before the child reports anything. *)
Definition jobCUnreadInput : job := mkJob "c" "int main(){}" "42".

Definition hostStdinFails : hostWorld :=
  mkHostWorld None (Some 0)
              (mkWorld [ExitEv (Some 0%Z) None]
                       (quietExec [ExitEv (Some 0%Z) None; CloseEv (Some 0%Z) None])).


(** The host in which the [spawn] of the compiler throws. *)
Definition hostCompileSpawnThrows : hostWorld :=
  mkHostWorld (Some [("code", "ERR_INVALID_ARG_TYPE")]) None
              (mkWorld [] (quietExec [])).
(** ** Vocabulary of the statements *)

(** The events for which the compile phase has a settling callback. *)
Definition compile_settles (e : event) : bool :=
  match e with
  | ErrorEv _ | ExitEv _ _ | TimerEv => true
  | _ => false
  end.

(** The events for which the execute phase has a settling callback. *)
Definition exec_settles (e : event) : bool :=
  match e with
  | ErrorEv _ | CloseEv _ _ | TimerEv => true
  | _ => false
  end.

(** A run of events none of which settles the promise. *)
Definition quiet (settles : event -> bool) (evs : list event) : bool :=
  forallb (fun e => negb (settles e)) evs.

(** The validation of lines 11-21 is passed. *)
Definition valid {Metadata : Type} (env : collaborators Metadata) (j : job) : Prop :=
  code j <> "" /\ includes (language j) (supportedLanguages env) = true.

(** The command specification [runCode] works with. *)
Definition specOf {Metadata : Type} (env : collaborators Metadata) (j : job)
  : commandSpec :=
  commandMap env (createCodeFile env (language j) (code j)) (language j).

(** The last effect of a phase that has settled: the timer was cleared, or
    it fired and the child was killed. *)
Definition closing_effect (ph : phase) (x : effect) : Prop :=
  x = EffClearTimeout ph \/ x = EffKill ph "SIGKILL".

(** The text the execute timer appends. *)
Definition timeout_notice : string :=
  nl ++ "Execution timed out after 10 seconds".

(** The error text of a failed compilation, by the event that settled
    the promise after the quiet events [pre]. *)
Definition compile_error_text (pre : list event) (e : event) : string :=
  match e with
  | ErrorEv m => "Compilation error: " ++ m
  | ExitEv _ _ => js_or (stderr_of pre) (js_or (stdout_of pre) "Compilation failed")
  | _ => "Compilation timed out"
  end.

(** The settling event makes the compilation fail. *)
Definition compile_fails (e : event) : bool :=
  match e with
  | ErrorEv _ | TimerEv => true
  | ExitEv c _ => Compile.code_nonzero c
  | _ => false
  end.

(** What the compile promise is settled with when [e] is the first
    settling event, after the quiet events [pre]. *)
Definition compile_settlement (language : string) (pre : list event) (e : event)
  : Compile.settlement :=
  if compile_fails e
  then Compile.Rejected (mkCompileResult 200 "" (compile_error_text pre e) language)
  else Compile.Resolved.

(** The last effect of a phase settled by [e]. *)
Definition closing_of (ph : phase) (e : event) : effect :=
  match e with
  | TimerEv => EffKill ph "SIGKILL"
  | _ => EffClearTimeout ph
  end.

(** What the execute promise is resolved with when [e] is the first
    settling event, after the quiet events [pre]. *)
Definition exec_settlement (pre : list event) (e : event) : execResult :=
  match e with
  | ErrorEv m => mkExecResult "" ("Runtime error: " ++ m)
  | CloseEv _ (Some s) =>
      if truthy s
      then mkExecResult (stdout_of pre)
             (stderr_of pre ++ nl ++ "Process terminated by signal: " ++ s)
      else mkExecResult (stdout_of pre) (stderr_of pre)
  | CloseEv _ None => mkExecResult (stdout_of pre) (stderr_of pre)
  | _ => mkExecResult (stdout_of pre) (stderr_of pre ++ timeout_notice)
  end.

(** The execute command is present and [spawn] returns a child: the
    callbacks get registered. *)
Definition exec_started (w : execWorld) (spec : commandSpec) : Prop :=
  truthy_opt (executeCodeCommand spec) = true /\ spawnThrows w = None.

(** The log the execute executor leaves when the callbacks are
    registered. *)
Definition exec_base (w : execWorld) (spec : commandSpec) (input : string)
  : list effect :=
  Execute.log (fst (Execute.executor w spec input)).

(** The effects of lines 151-164. *)
Definition stdin_effects (w : execWorld) (input : string) : list effect :=
  if negb (input =? "") then
    if stdinWriteThrows w then [EffStdinWrite input]
    else [EffStdinWrite input; EffStdinEnd]
  else [EffStdinEnd].

(** [executeCodeCommand] when it is present. *)
Definition execute_command (spec : commandSpec) : string :=
  match executeCodeCommand spec with
  | Some c => c
  | None => ""
  end.

(** [compileCodeCommand] when it is present. *)
Definition compile_command (spec : commandSpec) : string :=
  match compileCodeCommand spec with
  | Some c => c
  | None => ""
  end.

(** The identifier the artifact store hands out for the job. *)
Definition jobIDOf {Metadata : Type} (env : collaborators Metadata) (j : job)
  : string :=
  createCodeFile env (language j) (code j).

(** The compile promise of the job, run against the world. *)
Definition compileRun {Metadata : Type} (env : collaborators Metadata)
           (w : world) (j : job) : Compile.state :=
  Compile.run (language j) (compile_command (specOf env j))
              (compilationArgs (specOf env j)) (compileEvents w).

(** The execute promise of the job, run against the world. *)
Definition executeRun {Metadata : Type} (env : collaborators Metadata)
           (w : world) (j : job) : Execute.state :=
  Execute.run (execWorldOf w) (specOf env j) (input j).

(** The job has a compile step. *)
Definition has_compile_step {Metadata : Type} (env : collaborators Metadata)
           (j : job) : bool :=
  truthy_opt (compileCodeCommand (specOf env j)).

(** The job gets to the execute phase: it is valid, and its compile step
    is absent or its compile promise is resolved. *)
Definition reaches_execute {Metadata : Type} (env : collaborators Metadata)
           (w : world) (j : job) : Prop :=
  valid env j /\
  (has_compile_step env j = false \/
   settled (Compile.outcome (compileRun env w j)) = Some Compile.Resolved).

(** The two effects every run past the validation ends with. *)
Definition cleanup {Metadata : Type} (env : collaborators Metadata) (j : job)
  : list effect :=
  [EffRemoveCodeFile (jobIDOf env j) (language j) (outputExt (specOf env j));
   EffInfo (language j)].

(** The effects of the compile step of a run. *)
Definition compile_effects {Metadata : Type} (env : collaborators Metadata)
           (w : world) (j : job) : list effect :=
  if has_compile_step env j then Compile.log (compileRun env w j) else [].

(** Effects on the child process, as opposed to calls of the artifact
    store and of [info]. *)
Definition process_effect (e : effect) : bool :=
  match e with
  | EffCreateCodeFile _ _ | EffRemoveCodeFile _ _ _ | EffInfo _ => false
  | _ => true
  end.

(** The events of a child split at the first one that settles the promise:
    the quiet events before it, and the event itself.  When no event of
    the list settles, the deadline does. *)
Fixpoint first_settling_event (settles : event -> bool) (evs : list event)
  : list event * event :=
  match evs with
  | [] => ([], TimerEv)
  | e :: evs' =>
      if settles e then ([], e)
      else let '(pre, x) := first_settling_event settles evs' in (e :: pre, x)
  end.

(** What the execute promise is resolved with, from the choices of the
    world. *)
Definition exec_resolution (w : execWorld) (spec : commandSpec) : execResult :=
  if negb (truthy_opt (executeCodeCommand spec)) then
    mkExecResult "" "Executable not found"
  else
    match spawnThrows w with
    | Some message => mkExecResult "" ("Runtime error: " ++ message)
    | None =>
        let '(pre, e) := first_settling_event exec_settles (execEvents w) in
        exec_settlement pre e
    end.

(** What the compile promise is settled with, from the choices of the
    world. *)
Definition compile_resolution (language : string) (evs : list event)
  : Compile.settlement :=
  let '(pre, e) := first_settling_event compile_settles evs in
  compile_settlement language pre e.

(** The execute step cannot start the user's program: the command is
    missing, [spawn] throws, or the first thing the child reports is an
    [error] event.  The index is the error text of the case. *)
Inductive exec_unavailable (w : execWorld) (spec : commandSpec) : string -> Prop :=
| MissingCommand :
    truthy_opt (executeCodeCommand spec) = false ->
    exec_unavailable w spec "Executable not found"
| SpawnThrew (message : string) :
    truthy_opt (executeCodeCommand spec) = true ->
    spawnThrows w = Some message ->
    exec_unavailable w spec ("Runtime error: " ++ message)
| SpawnErrorEvent (message : string) (pre : list event) :
    exec_started w spec ->
    first_settling_event exec_settles (execEvents w) = (pre, ErrorEv message) ->
    exec_unavailable w spec ("Runtime error: " ++ message).

(** The events for which the Java runner has a settling callback. *)
Definition java_settles (e : event) : bool :=
  match e with
  | ExitEv _ _ | TimerEv => true
  | _ => false
  end.

(** What the Java runner's promise is settled with when [e] is the first
    settling event, after the quiet events [pre]. *)
Definition java_settlement (pre : list event) (e : event) : JavaRunner.settlement :=
  match e with
  | ExitEv _ _ =>
      if truthy (stderr_of pre)
      then JavaRunner.Rejected (stderr_of pre)
      else JavaRunner.Resolved (stdout_of pre)
  | _ => JavaRunner.Rejected JavaRunner.timeout_message
  end.

(** The record the Java runner builds from a settlement. *)
Definition java_result (now : Z) (s : JavaRunner.settlement) : JavaRunner.result :=
  match s with
  | JavaRunner.Resolved o => JavaRunner.mkResult true now (Some o) None
  | JavaRunner.Rejected e => JavaRunner.mkResult false now None (Some e)
  end.

(** ** Vocabulary for the whole run *)

Definition is_set_timeout (e : effect) : bool :=
  match e with
  | EffSetTimeout _ _ => true
  | _ => false
  end.

Definition is_clear_timeout (e : effect) : bool :=
  match e with
  | EffClearTimeout _ => true
  | _ => false
  end.

Definition is_stdin_write (e : effect) : bool :=
  match e with
  | EffStdinWrite _ => true
  | _ => false
  end.

Definition is_stdin_end (e : effect) : bool :=
  match e with
  | EffStdinEnd => true
  | _ => false
  end.

Definition is_info (e : effect) : bool :=
  match e with
  | EffInfo _ => true
  | _ => false
  end.

Definition is_timer (e : event) : bool :=
  match e with
  | TimerEv => true
  | _ => false
  end.

Definition is_exit (e : event) : bool :=
  match e with
  | ExitEv _ _ => true
  | _ => false
  end.


(** The first settling event of each phase of a run, with the quiet
    events before it. *)
Definition compile_decider (w : world) : list event * event :=
  first_settling_event compile_settles (compileEvents w).

Definition exec_decider (w : world) : list event * event :=
  first_settling_event exec_settles (execEvents (execWorldOf w)).

(** The job has a compile step and the step fails. *)
Definition compile_failed {Metadata : Type} (env : collaborators Metadata)
           (w : world) (j : job) : bool :=
  has_compile_step env j && compile_fails (snd (compile_decider w)).

(** The execute phase calls [spawn]: the compile step has not failed and
    the execute command is present. *)
Definition execute_spawns {Metadata : Type} (env : collaborators Metadata)
           (w : world) (j : job) : bool :=
  negb (compile_failed env w j)
  && truthy_opt (executeCodeCommand (specOf env j)).

(** The execute phase gets a child: it calls [spawn] and the call
    returns. *)
Definition execute_started {Metadata : Type} (env : collaborators Metadata)
           (w : world) (j : job) : bool :=
  execute_spawns env w j
  && match spawnThrows (execWorldOf w) with
     | Some _ => false
     | None => true
     end.

(** The validation of lines 11-21, as a boolean. *)
Definition passes_validation {Metadata : Type} (env : collaborators Metadata)
           (j : job) : bool :=
  negb (code j =? "") && includes (language j) (supportedLanguages env).

(** The effects of the compile step of a run, from its first settling
    event. *)
Definition compile_log {Metadata : Type} (env : collaborators Metadata)
           (w : world) (j : job) : list effect :=
  if has_compile_step env j then
    [EffSpawn CompilePhase (compile_command (specOf env j))
       (args_or_empty (compilationArgs (specOf env j))) None;
     EffSetTimeout CompilePhase 5000;
     closing_of CompilePhase (snd (compile_decider w))]
  else [].

(** The effects of the execute step of a run that gets to it. *)
Definition execute_log {Metadata : Type} (env : collaborators Metadata)
           (w : world) (j : job) : list effect :=
  if negb (truthy_opt (executeCodeCommand (specOf env j))) then []
  else
    match spawnThrows (execWorldOf w) with
    | Some _ =>
        [EffSpawn ExecutePhase (execute_command (specOf env j))
           (args_or_empty (executionArgs (specOf env j))) (Some 10000%Z)]
    | None =>
        (EffSpawn ExecutePhase (execute_command (specOf env j))
           (args_or_empty (executionArgs (specOf env j))) (Some 10000%Z)
         :: EffSetTimeout ExecutePhase 10000
         :: stdin_effects (execWorldOf w) (input j)
         ++ [closing_of ExecutePhase (snd (exec_decider w))])%list
    end.

(** The log of a whole run. *)
Definition effects_of {Metadata : Type} (env : collaborators Metadata)
           (w : world) (j : job) : list effect :=
  if passes_validation env j then
    (EffCreateCodeFile (language j) (code j)
     :: compile_log env w j
     ++ (if compile_failed env w j then [] else execute_log env w j)
     ++ cleanup env j)%list
  else [].

(** How a whole run completes. *)
Definition completion_of {Metadata : Type} (env : collaborators Metadata)
           (w : world) (j : job) : completion (response Metadata) :=
  if code j =? "" then
    Thrown (mkThrown 400 "No Code found to execute.")
  else if negb (includes (language j) (supportedLanguages env)) then
    Thrown (mkThrown 400 (unsupported_message env))
  else if compile_failed env w j then
    Returned (mkResponse (Some 200%Z) ""
                (compile_error_text (fst (compile_decider w)) (snd (compile_decider w)))
                (language j) (info env (language j)))
  else
    Returned (mkResponse None
                (r_output (exec_resolution (execWorldOf w) (specOf env j)))
                (r_error (exec_resolution (execWorldOf w) (specOf env j)))
                (language j) (info env (language j))).

(** The world with the exit codes of the execute phase's events erased. *)
Definition erase_code (e : event) : event :=
  match e with
  | ExitEv _ s => ExitEv None s
  | CloseEv _ s => CloseEv None s
  | _ => e
  end.

Definition erase_exit_codes (w : world) : world :=
  mkWorld (compileEvents w)
          (mkExecWorld (spawnThrows (execWorldOf w)) (killThrows (execWorldOf w))
                       (stdinWriteThrows (execWorldOf w))
                       (stdinEndThrows (execWorldOf w))
                       (map erase_code (execEvents (execWorldOf w)))).


(** More worlds the definitions are run on: a program ended by a signal; a
    compiler that warns and succeeds, one that succeeds silently; and a
    program whose [close] is followed by late events. *)
Definition worldSignal : world :=
  mkWorld [] (quietExec [StderrData "x"; CloseEv None (Some "SIGSEGV")]).

Definition worldCompileWarns : world :=
  mkWorld [StderrData "warning: unused variable"; ExitEv (Some 0%Z) None]
          (quietExec [StdoutData "ok"; CloseEv (Some 0%Z) None]).

Definition worldCompileSilent : world :=
  mkWorld [ExitEv (Some 0%Z) None]
          (quietExec [StdoutData "ok"; CloseEv (Some 0%Z) None]).

Definition worldLateEvents : world :=
  mkWorld [StderrData "warning: unused variable"; ExitEv (Some 0%Z) None;
           StderrData "late"; TimerEv]
          (quietExec [StdoutData "ok"; CloseEv (Some 0%Z) None;
                      StdoutData "late"; CloseEv (Some 1%Z) None; TimerEv]).

Definition is_close (e : event) : bool :=
  match e with
  | CloseEv _ _ => true
  | _ => false
  end.

Definition is_error (e : event) : bool :=
  match e with
  | ErrorEv _ => true
  | _ => false
  end.

(** The world without the events no callback is registered for: the
    [close] events of the compiler and the [exit] events of the
    program. *)
Definition drop_unheard (w : world) : world :=
  mkWorld (filter (fun e => negb (is_close e)) (compileEvents w))
          (mkExecWorld (spawnThrows (execWorldOf w)) (killThrows (execWorldOf w))
                       (stdinWriteThrows (execWorldOf w))
                       (stdinEndThrows (execWorldOf w))
                       (filter (fun e => negb (is_exit e))
                               (execEvents (execWorldOf w)))).

(** The child reports no [error] event.  The Java runner registers no
    callback for it. *)
Definition error_free (evs : list event) : bool :=
  forallb (fun e => negb (is_error e)) evs.

(** ** Vocabulary for the host *)

(** The job gets to the execute phase in the host: it is valid, and its
    compile step is absent, or the compiler is spawned and the compile
    promise is resolved. *)
Definition host_reaches_execute {Metadata : Type} (env : collaborators Metadata)
           (hw : hostWorld) (j : job) : Prop :=
  valid env j /\
  (has_compile_step env j = false \/
   (compileSpawnThrows hw = None /\
    settled (Compile.outcome (compileRun env (worldOf hw) j)) = Some Compile.Resolved)).

(** The execute promise of the job in the host. *)
Definition hostExecuteOf {Metadata : Type} (env : collaborators Metadata)
           (hw : hostWorld) (j : job) : Execute.state * bool :=
  hostExecuteRun hw (specOf env j) (input j).

(** * Properties *)

(** ** Strings *)

Lemma append_empty_r (s : string) : s ++ "" = s.
Proof. induction s as [|a s IH]; simpl; [reflexivity | now rewrite IH]. Qed.

Lemma append_assoc (a b c : string) : (a ++ b) ++ c = a ++ (b ++ c).
Proof. induction a as [|x a IH]; simpl; [reflexivity | now rewrite IH]. Qed.

Lemma js_or_nonempty (a b : string) : b <> "" -> js_or a b <> "".
Proof.
  intros Hb. unfold js_or, truthy.
  destruct (String.eqb_spec a ""); simpl; congruence.
Qed.

Lemma js_or_empty_r (a : string) : js_or a "" = a.
Proof.
  unfold js_or, truthy. destruct (String.eqb_spec a ""); simpl; congruence.
Qed.

Lemma number_toString_timeout : number_toString Execute.timeout = "10".
Proof. reflexivity. Qed.

(** ** The compile callbacks *)

Lemma compile_fold_quiet (language : string) (pre : list event) :
  forall st,
    quiet compile_settles pre = true ->
    fold_left (Compile.deliver language) pre st
    = Compile.mkState (Compile.compileError st ++ stderr_of pre)
                      (Compile.compileOutput st ++ stdout_of pre)
                      (Compile.isResolved st) (Compile.timerArmed st)
                      (Compile.outcome st) (Compile.log st).
Proof.
  induction pre as [|e pre IH]; intros [ce co r t o l] Hq; simpl in *.
  - now rewrite !append_empty_r.
  - apply andb_prop in Hq as [He Hq].
    destruct e; simpl in He; try discriminate;
      rewrite IH by assumption; simpl;
      unfold Compile.onStdout, Compile.onStderr; simpl;
      now rewrite ?append_assoc.
Qed.

Lemma compile_deliver_resolved (language : string) (e : event) (st : Compile.state) :
  Compile.isResolved st = true ->
  Compile.isResolved (Compile.deliver language st e) = true /\
  Compile.outcome (Compile.deliver language st e) = Compile.outcome st /\
  Compile.log (Compile.deliver language st e) = Compile.log st.
Proof.
  destruct st as [ce co r t o l]; simpl; intros ->.
  destruct e; simpl; auto.
  destruct t; simpl; auto.
Qed.

Lemma compile_fold_resolved (language : string) (evs : list event) :
  forall st,
    Compile.isResolved st = true ->
    Compile.isResolved (fold_left (Compile.deliver language) evs st) = true /\
    Compile.outcome (fold_left (Compile.deliver language) evs st) = Compile.outcome st /\
    Compile.log (fold_left (Compile.deliver language) evs st) = Compile.log st.
Proof.
  induction evs as [|e evs IH]; intros st Hr; simpl; [auto|].
  destruct (compile_deliver_resolved language e st Hr) as (H1 & H2 & H3).
  destruct (IH _ H1) as (H4 & H5 & H6).
  rewrite H4, H5, H6, H2, H3. auto.
Qed.

(** The first settling event decides the compile promise and closes the
    log; what follows changes neither. *)
Lemma compile_run_first (language command : string) (args : option (list string))
      (pre post : list event) (e : event) :
  quiet compile_settles pre = true ->
  compile_settles e = true ->
  Compile.outcome (Compile.run language command args (pre ++ e :: post))
  = mkPromise (Some (compile_settlement language pre e)) 1 /\
  Compile.log (Compile.run language command args (pre ++ e :: post))
  = [EffSpawn CompilePhase command (args_or_empty args) None;
     EffSetTimeout CompilePhase 5000;
     closing_of CompilePhase e].
Proof.
  intros Hq He. unfold Compile.run.
  rewrite fold_left_app. cbn [fold_left].
  rewrite (compile_fold_quiet language pre _ Hq).
  set (st := Compile.deliver language _ e).
  assert (Hst : Compile.isResolved st = true /\
                Compile.outcome st
                = mkPromise (Some (compile_settlement language pre e)) 1 /\
                Compile.log st
                = [EffSpawn CompilePhase command (args_or_empty args) None;
                   EffSetTimeout CompilePhase 5000;
                   closing_of CompilePhase e]).
  { subst st. unfold compile_settlement.
    destruct e as [d|d|m|c sg|c sg|]; simpl in He; try discriminate; simpl.
    - auto.
    - unfold Compile.onExit; simpl.
      destruct (Compile.code_nonzero c); simpl; auto.
    - auto. }
  destruct Hst as (H1 & H2 & H3).
  destruct (compile_fold_resolved language post st H1) as (H4 & H5 & H6).
  destruct (compile_deliver_resolved language TimerEv _ H4) as (_ & H7 & H8).
  rewrite H7, H8, H5, H6. auto.
Qed.

(** Without a settling event the deadline decides. *)
Lemma compile_run_deadline (language command : string) (args : option (list string))
      (pre : list event) :
  quiet compile_settles pre = true ->
  Compile.outcome (Compile.run language command args pre)
  = mkPromise (Some (compile_settlement language pre TimerEv)) 1 /\
  Compile.log (Compile.run language command args pre)
  = [EffSpawn CompilePhase command (args_or_empty args) None;
     EffSetTimeout CompilePhase 5000;
     EffKill CompilePhase "SIGKILL"].
Proof.
  intros Hq. unfold Compile.run.
  rewrite (compile_fold_quiet language pre _ Hq). simpl. auto.
Qed.

(** Every list of events is quiet, or has a first settling event. *)
Lemma first_settling (settles : event -> bool) (evs : list event) :
  quiet settles evs = true \/
  exists pre e post,
    evs = (pre ++ e :: post)%list /\ quiet settles pre = true /\ settles e = true.
Proof.
  induction evs as [|e evs IH]; [now left|].
  destruct (settles e) eqn:He.
  - right. exists [], e, evs. auto.
  - destruct IH as [Hq | (pre & e' & post & -> & Hq & He')].
    + left. simpl. now rewrite He, Hq.
    + right. exists (e :: pre), e', post. simpl. rewrite He, Hq. auto.
Qed.

(** The compile promise is always settled, by exactly one call, and the
    phase logs exactly three effects. *)
Lemma compile_run_settled (language command : string) (args : option (list string))
      (evs : list event) :
  exists s x,
    Compile.outcome (Compile.run language command args evs) = mkPromise (Some s) 1 /\
    Compile.log (Compile.run language command args evs)
    = [EffSpawn CompilePhase command (args_or_empty args) None;
       EffSetTimeout CompilePhase 5000; x] /\
    closing_effect CompilePhase x.
Proof.
  destruct (first_settling compile_settles evs)
    as [Hq | (pre & e & post & -> & Hq & He)].
  - destruct (compile_run_deadline language command args evs Hq) as (H1 & H2).
    eexists _, _. rewrite H1, H2. repeat split. now right.
  - destruct (compile_run_first language command args pre post e Hq He) as (H1 & H2).
    eexists _, _. rewrite H1, H2. repeat split.
    destruct e; simpl in *; try discriminate; (now left) || (now right).
Qed.

(** ** The execute callbacks *)

Lemma exec_fold_quiet (w : execWorld) (pre : list event) :
  forall st,
    quiet exec_settles pre = true ->
    fold_left (Execute.deliver w) pre st
    = Execute.mkState (Execute.output st ++ stdout_of pre)
                      (Execute.error st ++ stderr_of pre)
                      (Execute.isResolved st) (Execute.timerArmed st)
                      (Execute.outcome st) (Execute.log st).
Proof.
  induction pre as [|e pre IH]; intros [o er r t p l] Hq; simpl in *.
  - now rewrite !append_empty_r.
  - apply andb_prop in Hq as [He Hq].
    destruct e; simpl in He; try discriminate;
      rewrite IH by assumption; simpl;
      unfold Execute.onStdout, Execute.onStderr; simpl;
      now rewrite ?append_assoc.
Qed.

Lemma exec_deliver_resolved (w : execWorld) (e : event) (st : Execute.state) :
  Execute.isResolved st = true ->
  Execute.isResolved (Execute.deliver w st e) = true /\
  Execute.outcome (Execute.deliver w st e) = Execute.outcome st /\
  Execute.log (Execute.deliver w st e) = Execute.log st.
Proof.
  destruct st as [o er r t p l]; simpl; intros ->.
  destruct e; simpl; auto.
  destruct t; simpl; auto.
Qed.

Lemma exec_fold_resolved (w : execWorld) (evs : list event) :
  forall st,
    Execute.isResolved st = true ->
    Execute.isResolved (fold_left (Execute.deliver w) evs st) = true /\
    Execute.outcome (fold_left (Execute.deliver w) evs st) = Execute.outcome st /\
    Execute.log (fold_left (Execute.deliver w) evs st) = Execute.log st.
Proof.
  induction evs as [|e evs IH]; intros st Hr; simpl; [auto|].
  destruct (exec_deliver_resolved w e st Hr) as (H1 & H2 & H3).
  destruct (IH _ H1) as (H4 & H5 & H6).
  rewrite H4, H5, H6, H2, H3. auto.
Qed.

Lemma exec_write_input (w : execWorld) (input : string) (st : Execute.state) :
  Execute.write_input w input st
  = Execute.mkState (Execute.output st) (Execute.error st)
                    (Execute.isResolved st) (Execute.timerArmed st)
                    (Execute.outcome st)
                    (Execute.log st ++ stdin_effects w input).
Proof.
  unfold Execute.write_input, stdin_effects.
  destruct st as [o er r t p l]; simpl.
  destruct (negb (input =? "")); simpl;
    destruct (stdinWriteThrows w); simpl;
    destruct (stdinEndThrows w); unfold Execute.emit; simpl;
    rewrite <- ?app_assoc; reflexivity.
Qed.

Lemma exec_base_started (w : execWorld) (spec : commandSpec) (input : string) :
  exec_started w spec ->
  exec_base w spec input
  = (EffSpawn ExecutePhase (execute_command spec) (args_or_empty (executionArgs spec))
       (Some 10000%Z)
     :: EffSetTimeout ExecutePhase 10000
     :: stdin_effects w input).
Proof.
  intros [Hc Hs]. unfold exec_base, Execute.executor.
  rewrite Hc, Hs. simpl. rewrite exec_write_input. reflexivity.
Qed.

Lemma exec_executor_started (w : execWorld) (spec : commandSpec) (input : string) :
  exec_started w spec ->
  Execute.executor w spec input
  = (Execute.mkState "" "" false true pending (exec_base w spec input), true).
Proof.
  intros [Hc Hs]. unfold exec_base, Execute.executor.
  rewrite Hc, Hs. simpl. rewrite exec_write_input. reflexivity.
Qed.

Lemma exec_deliver_first (w : execWorld) (base : list effect)
      (o er : string) (e : event) :
  exec_settles e = true ->
  let st := Execute.deliver w (Execute.mkState o er false true pending base) e in
  Execute.isResolved st = true /\
  Execute.outcome st
  = mkPromise (Some (match e with
                     | ErrorEv m => mkExecResult "" ("Runtime error: " ++ m)
                     | CloseEv _ (Some s) =>
                         if truthy s
                         then mkExecResult o (er ++ nl ++ "Process terminated by signal: " ++ s)
                         else mkExecResult o er
                     | CloseEv _ None => mkExecResult o er
                     | _ => mkExecResult o (er ++ timeout_notice)
                     end)) 1 /\
  Execute.log st = (base ++ [closing_of ExecutePhase e])%list.
Proof.
  intros He.
  destruct e as [d|d|m|c sg|c sg|]; simpl in He; try discriminate; simpl.
  - auto.
  - unfold Execute.onClose; simpl.
    destruct sg as [s|]; simpl; [destruct (truthy s); simpl|]; auto.
  - unfold Execute.onTimer, Execute.try_kill; simpl.
    destruct (killThrows w); simpl; rewrite js_or_empty_r; auto.
Qed.

(** The first settling event decides the execute promise and closes the
    log; what follows changes neither. *)
Lemma exec_run_first (w : execWorld) (spec : commandSpec) (input : string)
      (pre post : list event) (e : event) :
  exec_started w spec ->
  execEvents w = (pre ++ e :: post)%list ->
  quiet exec_settles pre = true ->
  exec_settles e = true ->
  Execute.outcome (Execute.run w spec input)
  = mkPromise (Some (exec_settlement pre e)) 1 /\
  Execute.log (Execute.run w spec input)
  = (exec_base w spec input ++ [closing_of ExecutePhase e])%list.
Proof.
  intros Hs Hev Hq He. unfold Execute.run.
  rewrite (exec_executor_started w spec input Hs), Hev.
  rewrite fold_left_app. cbn [fold_left].
  rewrite (exec_fold_quiet w pre _ Hq).
  cbn [Execute.output Execute.error Execute.isResolved Execute.timerArmed
       Execute.outcome Execute.log String.append].
  destruct (exec_deliver_first w (exec_base w spec input)
              (stdout_of pre) (stderr_of pre) e He) as (H1 & H2 & H3).
  destruct (exec_fold_resolved w post _ H1) as (H4 & H5 & H6).
  destruct (exec_deliver_resolved w TimerEv _ H4) as (_ & H7 & H8).
  rewrite H7, H8, H5, H6, H2, H3. split; [|reflexivity].
  unfold exec_settlement.
  destruct e as [d|d|m|c sg|c sg|]; simpl in He; try discriminate; reflexivity.
Qed.

(** Without a settling event the deadline decides. *)
Lemma exec_run_deadline (w : execWorld) (spec : commandSpec) (input : string) :
  exec_started w spec ->
  quiet exec_settles (execEvents w) = true ->
  Execute.outcome (Execute.run w spec input)
  = mkPromise (Some (exec_settlement (execEvents w) TimerEv)) 1 /\
  Execute.log (Execute.run w spec input)
  = (exec_base w spec input ++ [EffKill ExecutePhase "SIGKILL"])%list.
Proof.
  intros Hs Hq. unfold Execute.run.
  rewrite (exec_executor_started w spec input Hs).
  rewrite (exec_fold_quiet w _ _ Hq).
  cbn [Execute.output Execute.error Execute.isResolved Execute.timerArmed
       Execute.outcome Execute.log String.append].
  destruct (exec_deliver_first w (exec_base w spec input)
              (stdout_of (execEvents w)) (stderr_of (execEvents w)) TimerEv eq_refl)
    as (_ & H2 & H3).
  rewrite H2, H3. split; reflexivity.
Qed.

(** The execute command is missing: the promise is resolved at once and
    nothing is spawned. *)
Lemma exec_run_missing (w : execWorld) (spec : commandSpec) (input : string) :
  truthy_opt (executeCodeCommand spec) = false ->
  Execute.outcome (Execute.run w spec input)
  = mkPromise (Some (mkExecResult "" "Executable not found")) 1 /\
  Execute.log (Execute.run w spec input) = [].
Proof.
  intros Hc. unfold Execute.run, Execute.executor. rewrite Hc. simpl. auto.
Qed.

(** [spawn] throws: the promise is resolved by the [catch]. *)
Lemma exec_run_spawn_throws (w : execWorld) (spec : commandSpec) (input message : string) :
  truthy_opt (executeCodeCommand spec) = true ->
  spawnThrows w = Some message ->
  Execute.outcome (Execute.run w spec input)
  = mkPromise (Some (mkExecResult "" ("Runtime error: " ++ message))) 1 /\
  Execute.log (Execute.run w spec input)
  = [EffSpawn ExecutePhase (execute_command spec) (args_or_empty (executionArgs spec))
     (Some 10000%Z)].
Proof.
  intros Hc Hs. unfold Execute.run, Execute.executor. rewrite Hc, Hs. simpl. auto.
Qed.

(** ** The pipeline *)

Section PipelineFacts.

Context {Metadata : Type} (env : collaborators Metadata).

Lemma runCode_empty_code (w : world) (j : job) (l : list effect) :
  code j = "" ->
  runCode env w j l = (Thrown (mkThrown 400 "No Code found to execute."), l).
Proof. intros H. unfold runCode. rewrite H. reflexivity. Qed.

Lemma runCode_unsupported (w : world) (j : job) (l : list effect) :
  code j <> "" ->
  includes (language j) (supportedLanguages env) = false ->
  runCode env w j l = (Thrown (mkThrown 400 (unsupported_message env)), l).
Proof.
  intros Hc Hl. unfold runCode.
  destruct (String.eqb_spec (code j) ""); [contradiction|].
  rewrite Hl. reflexivity.
Qed.

(** A valid job whose compile step fails: the rejection is caught, the
    artifact removed, and the rejection object returned with [info]. *)
Lemma runCode_compile_rejected (w : world) (j : job) (r : compileResult) :
  valid env j ->
  has_compile_step env j = true ->
  settled (Compile.outcome (compileRun env w j)) = Some (Compile.Rejected r) ->
  runCode env w j []
  = (Returned (mkResponse (Some (cr_status r)) (cr_output r) (cr_error r)
                          (cr_language r) (info env (language j))),
     (EffCreateCodeFile (language j) (code j)
      :: Compile.log (compileRun env w j) ++ cleanup env j)%list).
Proof.
  intros [Hc Hl] Hs Hr. unfold runCode.
  destruct (String.eqb_spec (code j) ""); [contradiction|].
  rewrite Hl. simpl.
  unfold bind, call_createCodeFile, bind, tell, ret, compilePhase. simpl.
  unfold has_compile_step, specOf in Hs. rewrite Hs.
  unfold bind, tell, await. simpl.
  unfold compileRun, specOf, compile_command in Hr. rewrite Hr. simpl.
  unfold cleanup, jobIDOf, specOf, compileRun, specOf, compile_command.
  rewrite <- app_assoc. reflexivity.
Qed.

(** A valid job that gets to the execute phase: whatever the execute
    promise is resolved with is returned, after the artifact is
    removed. *)
Lemma runCode_executed (w : world) (j : job) (r : execResult) :
  reaches_execute env w j ->
  settled (Execute.outcome (executeRun env w j)) = Some r ->
  runCode env w j []
  = (Returned (mkResponse None (r_output r) (r_error r) (language j)
                          (info env (language j))),
     (EffCreateCodeFile (language j) (code j)
      :: compile_effects env w j
      ++ Execute.log (executeRun env w j) ++ cleanup env j)%list).
Proof.
  intros [[Hc Hl] Hcomp] Hr. unfold runCode.
  destruct (String.eqb_spec (code j) ""); [contradiction|].
  rewrite Hl. simpl.
  unfold bind, call_createCodeFile, bind, tell, ret, compilePhase. simpl.
  unfold compile_effects.
  destruct (has_compile_step env j) eqn:Hs.
  - destruct Hcomp as [Hcomp | Hcomp]; [discriminate|].
    unfold has_compile_step, specOf in Hs. rewrite Hs.
    unfold bind, tell, await. simpl.
    unfold compileRun, specOf, compile_command in Hcomp. rewrite Hcomp. simpl.
    unfold executePhase, bind, tell, await. simpl.
    unfold executeRun, specOf in Hr. rewrite Hr. simpl.
    unfold cleanup, jobIDOf, specOf, compileRun, executeRun, specOf, compile_command.
    rewrite <- !app_assoc. reflexivity.
  - unfold has_compile_step, specOf in Hs. rewrite Hs. simpl.
    unfold executePhase, bind, tell, await. simpl.
    unfold executeRun, specOf in Hr. rewrite Hr. simpl.
    unfold cleanup, jobIDOf, specOf, executeRun, specOf.
    rewrite <- !app_assoc. reflexivity.
Qed.

End PipelineFacts.

(** ** The first settling event *)

Lemma first_settling_event_spec (settles : event -> bool) (evs pre : list event)
      (e : event) :
  first_settling_event settles evs = (pre, e) ->
  quiet settles pre = true /\
  ((exists post, evs = (pre ++ e :: post)%list /\ settles e = true) \/
   (evs = pre /\ e = TimerEv)).
Proof.
  revert pre e. induction evs as [|x evs IH]; simpl; intros pre e H.
  - inversion H; subst. split; [reflexivity | now right].
  - destruct (settles x) eqn:Hx.
    + inversion H; subst. split; [reflexivity|]. left. now exists evs.
    + destruct (first_settling_event settles evs) as [pre' e'].
      inversion H; subst.
      destruct (IH pre' e eq_refl) as (Hq & Hcase).
      split; [simpl; now rewrite Hx, Hq|].
      destruct Hcase as [(post & -> & He) | (-> & ->)].
      * left. now exists post.
      * now right.
Qed.

Lemma compile_run_decided (language command : string) (args : option (list string))
      (evs pre : list event) (e : event) :
  first_settling_event compile_settles evs = (pre, e) ->
  Compile.outcome (Compile.run language command args evs)
  = mkPromise (Some (compile_settlement language pre e)) 1 /\
  Compile.log (Compile.run language command args evs)
  = [EffSpawn CompilePhase command (args_or_empty args) None;
     EffSetTimeout CompilePhase 5000;
     closing_of CompilePhase e].
Proof.
  intros H.
  destruct (first_settling_event_spec _ _ _ _ H) as (Hq & [(post & -> & He) | (-> & ->)]).
  - now apply compile_run_first.
  - now apply compile_run_deadline.
Qed.

Lemma compile_run_resolution (language command : string) (args : option (list string))
      (evs : list event) :
  Compile.outcome (Compile.run language command args evs)
  = mkPromise (Some (compile_resolution language evs)) 1.
Proof.
  unfold compile_resolution.
  destruct (first_settling_event compile_settles evs) as [pre e] eqn:H.
  now destruct (compile_run_decided language command args evs pre e H).
Qed.

Lemma exec_run_decided (w : execWorld) (spec : commandSpec) (input : string)
      (pre : list event) (e : event) :
  exec_started w spec ->
  first_settling_event exec_settles (execEvents w) = (pre, e) ->
  Execute.outcome (Execute.run w spec input)
  = mkPromise (Some (exec_settlement pre e)) 1 /\
  Execute.log (Execute.run w spec input)
  = (exec_base w spec input ++ [closing_of ExecutePhase e])%list.
Proof.
  intros Hs H.
  destruct (first_settling_event_spec _ _ _ _ H) as (Hq & [(post & Hev & He) | (Hev & ->)]).
  - now apply (exec_run_first w spec input pre post e).
  - rewrite <- Hev in *. now apply exec_run_deadline.
Qed.

Lemma exec_run_resolution (w : execWorld) (spec : commandSpec) (input : string) :
  Execute.outcome (Execute.run w spec input)
  = mkPromise (Some (exec_resolution w spec)) 1.
Proof.
  unfold exec_resolution.
  destruct (truthy_opt (executeCodeCommand spec)) eqn:Hc; simpl.
  2:{ now destruct (exec_run_missing w spec input Hc). }
  destruct (spawnThrows w) as [m|] eqn:Hs.
  { now destruct (exec_run_spawn_throws w spec input m Hc Hs). }
  destruct (first_settling_event exec_settles (execEvents w)) as [pre e] eqn:H.
  now destruct (exec_run_decided w spec input pre e (conj Hc Hs) H).
Qed.

(** ** Logs *)

Lemma count_app (f : effect -> bool) (l1 l2 : list effect) :
  count f (l1 ++ l2) = count f l1 + count f l2.
Proof. unfold count. now rewrite filter_app, length_app. Qed.

Lemma count_process_remove (l : list effect) :
  forallb process_effect l = true -> count is_remove l = 0.
Proof.
  unfold count. induction l as [|e l IH]; simpl; [reflexivity|].
  intros H. apply andb_prop in H as [He Hl].
  destruct e; simpl in *; try discriminate; auto.
Qed.

Lemma count_process_create (l : list effect) :
  forallb process_effect l = true -> count is_create l = 0.
Proof.
  unfold count. induction l as [|e l IH]; simpl; [reflexivity|].
  intros H. apply andb_prop in H as [He Hl].
  destruct e; simpl in *; try discriminate; auto.
Qed.

Lemma stdin_effects_process (w : execWorld) (input : string) :
  forallb process_effect (stdin_effects w input) = true.
Proof.
  unfold stdin_effects.
  destruct (negb (input =? "")), (stdinWriteThrows w); reflexivity.
Qed.

Lemma closing_effect_process (ph : phase) (x : effect) :
  closing_effect ph x -> process_effect x = true.
Proof. intros [-> | ->]; reflexivity. Qed.

(** The execute promise is always settled, by exactly one call, and the
    phase touches nothing but the child process. *)
Lemma exec_run_settled (w : execWorld) (spec : commandSpec) (input : string) :
  exists r,
    Execute.outcome (Execute.run w spec input) = mkPromise (Some r) 1 /\
    forallb process_effect (Execute.log (Execute.run w spec input)) = true.
Proof.
  destruct (truthy_opt (executeCodeCommand spec)) eqn:Hc.
  2:{ destruct (exec_run_missing w spec input Hc) as (H1 & H2).
      eexists. rewrite H1, H2. split; reflexivity. }
  destruct (spawnThrows w) as [m|] eqn:Hs.
  { destruct (exec_run_spawn_throws w spec input m Hc Hs) as (H1 & H2).
    eexists. rewrite H1, H2. split; reflexivity. }
  assert (Hst : exec_started w spec) by (split; assumption).
  assert (Hbase : forallb process_effect (exec_base w spec input) = true).
  { rewrite (exec_base_started w spec input Hst). simpl.
    apply stdin_effects_process. }
  destruct (first_settling exec_settles (execEvents w))
    as [Hq | (pre & e & post & Hev & Hq & He)].
  - destruct (exec_run_deadline w spec input Hst Hq) as (H1 & H2).
    eexists. rewrite H1, H2. split; [reflexivity|].
    rewrite forallb_app, Hbase. reflexivity.
  - destruct (exec_run_first w spec input pre post e Hst Hev Hq He) as (H1 & H2).
    eexists. rewrite H1, H2. split; [reflexivity|].
    rewrite forallb_app, Hbase. simpl.
    destruct e; reflexivity.
Qed.

Lemma compile_log_process (language command : string) (args : option (list string))
      (evs : list event) :
  forallb process_effect (Compile.log (Compile.run language command args evs)) = true.
Proof.
  destruct (compile_run_settled language command args evs) as (s & x & _ & -> & Hx).
  simpl. now rewrite (closing_effect_process _ _ Hx).
Qed.

Section Cleanup.

Context {Metadata : Type} (env : collaborators Metadata).

(** Shape of every run of a valid job: it returns, and its log is the
    creation of the artifact, effects on child processes, and the
    cleanup. *)
Lemma runCode_valid_shape (w : world) (j : job) :
  valid env j ->
  exists r mid,
    runCode env w j []
    = (Returned r,
       (EffCreateCodeFile (language j) (code j) :: mid ++ cleanup env j)%list) /\
    forallb process_effect mid = true.
Proof.
  intros Hv.
  destruct (has_compile_step env j) eqn:Hs.
  - destruct (compile_run_settled (language j) (compile_command (specOf env j))
                (compilationArgs (specOf env j)) (compileEvents w))
      as (s & x & Ho & _ & _).
    fold (compileRun env w j) in Ho.
    destruct s as [|r].
    + assert (Hre : reaches_execute env w j).
      { split; [assumption|]. right. now rewrite Ho. }
      destruct (exec_run_settled (execWorldOf w) (specOf env j) (input j))
        as (res & Hres & Hlog).
      fold (executeRun env w j) in Hres, Hlog.
      eexists _, (compile_effects env w j ++ Execute.log (executeRun env w j))%list.
      split.
      * rewrite (runCode_executed env w j res Hre) by now rewrite Hres.
        now rewrite <- app_assoc.
      * rewrite forallb_app, Hlog. unfold compile_effects. rewrite Hs.
        unfold compileRun. now rewrite compile_log_process.
    + eexists _, (Compile.log (compileRun env w j)). split.
      * apply runCode_compile_rejected; try assumption. now rewrite Ho.
      * apply compile_log_process.
  - assert (Hre : reaches_execute env w j) by (split; [assumption | now left]).
    destruct (exec_run_settled (execWorldOf w) (specOf env j) (input j))
      as (res & Hres & Hlog).
    fold (executeRun env w j) in Hres, Hlog.
    eexists _, (compile_effects env w j ++ Execute.log (executeRun env w j))%list.
    split.
    * rewrite (runCode_executed env w j res Hre) by now rewrite Hres.
      now rewrite <- app_assoc.
    * rewrite forallb_app, Hlog. unfold compile_effects. now rewrite Hs.
Qed.

(** [runCode], the pipeline in a host that stays alive and whose compiler
    gets spawned.  Whatever the world does in the compile and in the
    execute phase, a valid job returns, and the log of the run holds
    exactly one call of [removeCodeFile]: it is the last effect but [info],
    it is made for the job's own artifact, and between the creation and it
    there are only effects on the child processes. *)
Lemma artifact_removed_exactly_once (w : world) (j : job) :
  valid env j ->
  exists r mid,
    runCode env w j []
    = (Returned r,
       (EffCreateCodeFile (language j) (code j) :: mid
        ++ [EffRemoveCodeFile (jobIDOf env j) (language j) (outputExt (specOf env j));
            EffInfo (language j)])%list) /\
    forallb process_effect mid = true /\
    count is_remove (snd (runCode env w j [])) = 1 /\
    count is_create (snd (runCode env w j [])) = 1.
Proof.
  intros Hv.
  destruct (runCode_valid_shape w j Hv) as (r & mid & Hrun & Hmid).
  exists r, mid. split; [exact Hrun|]. split; [exact Hmid|].
  rewrite Hrun. cbn [snd].
  change (EffCreateCodeFile (language j) (code j) :: mid ++ cleanup env j)%list
    with ([EffCreateCodeFile (language j) (code j)] ++ mid ++ cleanup env j)%list.
  rewrite !count_app, (count_process_remove mid Hmid), (count_process_create mid Hmid).
  split; reflexivity.
Qed.

(** C7.  A job with empty code, or with a language outside the supported
    set, makes [runCode] throw an object with status 400, and the log of
    the run is empty: [createCodeFile] is never called (no artifact) and
    [spawn] is never called (no process). *)
Theorem invalid_job_rejected_without_effects (w : world) (j : job) :
  code j = "" \/ includes (language j) (supportedLanguages env) = false ->
  exists t,
    runCode env w j [] = (Thrown t, []) /\
    t_status t = 400%Z /\
    count is_create (snd (runCode env w j [])) = 0 /\
    count is_spawn (snd (runCode env w j [])) = 0.
Proof.
  intros H.
  destruct (String.eqb_spec (code j) "") as [Hc | Hc].
  - eexists. rewrite !(runCode_empty_code env w j _ Hc). repeat split.
  - destruct H as [H | H]; [contradiction|].
    eexists. rewrite !(runCode_unsupported env w j _ Hc H). repeat split.
Qed.

End Cleanup.

Section Phases.

Context {Metadata : Type} (env : collaborators Metadata).

(** A valid job whose compile step fails, spelled out. *)
Lemma runCode_compile_failure (w : world) (j : job) (pre : list event) (e : event) :
  valid env j ->
  has_compile_step env j = true ->
  first_settling_event compile_settles (compileEvents w) = (pre, e) ->
  compile_fails e = true ->
  runCode env w j []
  = (Returned (mkResponse (Some 200%Z) "" (compile_error_text pre e) (language j)
                          (info env (language j))),
     (EffCreateCodeFile (language j) (code j)
      :: [EffSpawn CompilePhase (compile_command (specOf env j))
            (args_or_empty (compilationArgs (specOf env j))) None;
          EffSetTimeout CompilePhase 5000;
          closing_of CompilePhase e]
      ++ cleanup env j)%list).
Proof.
  intros Hv Hs Hfs Hf.
  destruct (compile_run_decided (language j) (compile_command (specOf env j))
              (compilationArgs (specOf env j)) (compileEvents w) pre e Hfs)
    as (Ho & Hl).
  fold (compileRun env w j) in Ho, Hl.
  unfold compile_settlement in Ho. rewrite Hf in Ho.
  rewrite (runCode_compile_rejected env w j _ Hv Hs) by (rewrite Ho; reflexivity).
  rewrite Hl. reflexivity.
Qed.

(** A job whose compile step succeeds gets to the execute phase. *)
Lemma compile_success_reaches_execute (w : world) (j : job) (pre : list event)
      (e : event) :
  valid env j ->
  first_settling_event compile_settles (compileEvents w) = (pre, e) ->
  compile_fails e = false ->
  reaches_execute env w j.
Proof.
  intros Hv Hfs Hf. split; [assumption|]. right.
  destruct (compile_run_decided (language j) (compile_command (specOf env j))
              (compilationArgs (specOf env j)) (compileEvents w) pre e Hfs)
    as (Ho & _).
  fold (compileRun env w j) in Ho. rewrite Ho.
  unfold compile_settlement. now rewrite Hf.
Qed.

Lemma compile_effects_no_execute_spawn (w : world) (j : job) :
  count (is_spawn_in ExecutePhase) (compile_effects env w j) = 0.
Proof.
  unfold compile_effects. destruct (has_compile_step env j); [|reflexivity].
  unfold compileRun.
  destruct (compile_run_settled (language j) (compile_command (specOf env j))
              (compilationArgs (specOf env j)) (compileEvents w))
    as (s & x & _ & -> & [-> | ->]); reflexivity.
Qed.

Lemma compile_effects_process (w : world) (j : job) :
  forallb process_effect (compile_effects env w j) = true.
Proof.
  unfold compile_effects. destruct (has_compile_step env j); [|reflexivity].
  apply compile_log_process.
Qed.

(** What [runCode] returns once the job is in the execute phase. *)
Lemma runCode_execute_resolution (w : world) (j : job) :
  reaches_execute env w j ->
  runCode env w j []
  = (Returned (mkResponse None
                 (r_output (exec_resolution (execWorldOf w) (specOf env j)))
                 (r_error (exec_resolution (execWorldOf w) (specOf env j)))
                 (language j) (info env (language j))),
     (EffCreateCodeFile (language j) (code j)
      :: compile_effects env w j
      ++ Execute.log (executeRun env w j) ++ cleanup env j)%list).
Proof.
  intros Hre. apply runCode_executed; [assumption|].
  unfold executeRun. now rewrite exec_run_resolution.
Qed.

(** C2.  The job is in the execute phase, its program is started, and the
    first event to settle the execute promise is the timer (the events
    [pre] before it settle nothing).  Then the response's [output] is the
    stdout text received in [pre], and its [error] is the stderr text
    received in [pre] followed by the timeout notice. *)
Theorem timeout_keeps_partial_output (w : world) (j : job) (pre : list event) :
  reaches_execute env w j ->
  exec_started (execWorldOf w) (specOf env j) ->
  first_settling_event exec_settles (execEvents (execWorldOf w)) = (pre, TimerEv) ->
  exists r log,
    runCode env w j [] = (Returned r, log) /\
    output r = stdout_of pre /\
    error r = stderr_of pre ++ nl ++ "Execution timed out after 10 seconds".
Proof.
  intros Hre [Hc Hs] Hfs.
  eexists _, _. split; [apply (runCode_execute_resolution w j Hre)|].
  unfold exec_resolution. rewrite Hc, Hs, Hfs. simpl. split; reflexivity.
Qed.

(** [runCode], the pipeline in a host that stays alive and whose compiler
    gets spawned, throws exactly when the code is empty or the language is
    not supported, and what it throws has status 400.  Every other call
    returns a response: a failed compilation is caught inside [runCode]
    and returned with status 200. *)
Lemma only_request_errors_are_thrown (w : world) (j : job) :
  ((exists t, fst (runCode env w j []) = Thrown t) <->
   (code j = "" \/ includes (language j) (supportedLanguages env) = false)) /\
  (forall t, fst (runCode env w j []) = Thrown t -> t_status t = 400%Z) /\
  ((exists r, fst (runCode env w j []) = Returned r) <-> valid env j) /\
  (forall r pre e,
      fst (runCode env w j []) = Returned r ->
      has_compile_step env j = true ->
      first_settling_event compile_settles (compileEvents w) = (pre, e) ->
      compile_fails e = true ->
      status r = Some 200%Z /\ error r = compile_error_text pre e).
Proof.
  destruct (String.eqb_spec (code j) "") as [Hc | Hc].
  - rewrite (runCode_empty_code env w j [] Hc). cbn [fst].
    split; [split; [now left | now eexists]|].
    split; [intros t [= <-]; reflexivity|].
    split; [split; [intros [r [=]] | intros [Hv _]; contradiction]|].
    intros r pre e [=].
  - destruct (includes (language j) (supportedLanguages env)) eqn:Hl.
    + assert (Hv : valid env j) by (split; assumption).
      destruct (runCode_valid_shape env w j Hv) as (r & mid & Hrun & _).
      split.
      { rewrite Hrun. cbn [fst]. split.
        - intros [t [=]].
        - intros [? | [=]]; contradiction. }
      split; [rewrite Hrun; intros t [=]|].
      split; [rewrite Hrun; cbn [fst]; split; [auto | now eexists]|].
      intros r' pre e Hr Hs Hfs Hf.
      rewrite (runCode_compile_failure w j pre e Hv Hs Hfs Hf) in Hr.
      cbn [fst] in Hr. injection Hr as <-. split; reflexivity.
    + rewrite (runCode_unsupported env w j [] Hc Hl). cbn [fst].
      split; [split; [now right | now eexists]|].
      split; [intros t [= <-]; reflexivity|].
      split; [split; [intros [r [=]] | intros [_ H]; congruence]|].
      intros r pre e [=].
Qed.

(** [runCode], the pipeline in a host whose compiler gets spawned: when
    the first settling event of the compiler makes the compilation fail,
    [runCode] returns without a single [spawn] of the execute phase, with
    the error text of the cause. *)
Lemma compile_failure_skips_execute (w : world) (j : job)
        (pre : list event) (e : event) :
  valid env j ->
  has_compile_step env j = true ->
  first_settling_event compile_settles (compileEvents w) = (pre, e) ->
  compile_fails e = true ->
  exists r log,
    runCode env w j [] = (Returned r, log) /\
    count (is_spawn_in ExecutePhase) log = 0 /\
    count is_remove log = 1 /\
    output r = "" /\
    error r = match e with
              | ExitEv _ _ =>
                  js_or (stderr_of pre) (js_or (stdout_of pre) "Compilation failed")
              | ErrorEv message => "Compilation error: " ++ message
              | _ => "Compilation timed out"
              end.
Proof.
  intros Hv Hs Hfs Hf.
  eexists _, _. split; [apply (runCode_compile_failure w j pre e Hv Hs Hfs Hf)|].
  cbn [output error]. unfold cleanup.
  destruct e; simpl in Hf; try discriminate; repeat split.
Qed.

Lemma exec_unavailable_resolution (w : execWorld) (spec : commandSpec)
      (message : string) :
  exec_unavailable w spec message ->
  exec_resolution w spec = mkExecResult "" message.
Proof.
  unfold exec_resolution.
  intros [Hc | m Hc Hs | m pre [Hc Hs] Hfs]; rewrite Hc; simpl.
  - reflexivity.
  - now rewrite Hs.
  - now rewrite Hs, Hfs.
Qed.

Lemma exec_unavailable_message (w : execWorld) (spec : commandSpec)
      (message : string) :
  exec_unavailable w spec message ->
  message <> "" /\
  (message = "Executable not found" \/
   exists m, message = "Runtime error: " ++ m).
Proof.
  intros [Hc | m Hc Hs | m pre Hst Hfs]; (split; [discriminate|]).
  - now left.
  - right. now exists m.
  - right. now exists m.
Qed.

(** C8.  The job is in the execute phase and its program cannot be
    started: the execute command is missing, [spawn] throws, or the first
    settling event of the child is an [error] event.  Then [runCode]
    returns a response with empty [output] (also when stdout text had
    arrived) and a non-empty [error] that names the case, [Executable not
    found] or [Runtime error: ] followed by the message; the artifact is
    removed exactly once; and with the command missing the log has no
    [spawn] of the execute phase. *)
Theorem unavailable_executable_reported (w : world) (j : job) (message : string) :
  reaches_execute env w j ->
  exec_unavailable (execWorldOf w) (specOf env j) message ->
  exists r log,
    runCode env w j [] = (Returned r, log) /\
    output r = "" /\
    error r = message /\
    error r <> "" /\
    (message = "Executable not found" \/
     exists m, message = "Runtime error: " ++ m) /\
    count is_remove log = 1 /\
    (truthy_opt (executeCodeCommand (specOf env j)) = false ->
     count (is_spawn_in ExecutePhase) log = 0).
Proof.
  intros Hre Hun.
  destruct (exec_unavailable_message _ _ _ Hun) as (Hne & Hname).
  eexists _, _. split; [apply (runCode_execute_resolution w j Hre)|].
  rewrite (exec_unavailable_resolution _ _ _ Hun). cbn [output error r_output r_error].
  repeat (split; [solve [reflexivity | assumption]|]).
  assert (Hlog : forallb process_effect (Execute.log (executeRun env w j)) = true).
  { unfold executeRun.
    now destruct (exec_run_settled (execWorldOf w) (specOf env j) (input j))
      as (res & _ & H). }
  split.
  - change (EffCreateCodeFile (language j) (code j)
            :: compile_effects env w j
            ++ Execute.log (executeRun env w j) ++ cleanup env j)%list
      with ([EffCreateCodeFile (language j) (code j)]
            ++ compile_effects env w j
            ++ Execute.log (executeRun env w j) ++ cleanup env j)%list.
    rewrite !count_app.
    rewrite (count_process_remove _ (compile_effects_process w j)).
    rewrite (count_process_remove _ Hlog). reflexivity.
  - intros Hc.
    change (EffCreateCodeFile (language j) (code j)
            :: compile_effects env w j
            ++ Execute.log (executeRun env w j) ++ cleanup env j)%list
      with ([EffCreateCodeFile (language j) (code j)]
            ++ compile_effects env w j
            ++ Execute.log (executeRun env w j) ++ cleanup env j)%list.
    rewrite !count_app, compile_effects_no_execute_spawn.
    unfold executeRun.
    destruct (exec_run_missing (execWorldOf w) (specOf env j) (input j) Hc) as (_ & ->).
    reflexivity.
Qed.

(** [runCode], the pipeline in a host that stays alive and whose compiler
    gets spawned: a failed compile step is returned with status 200, a
    failed validation thrown with status 400, and no response has a status
    other than 200. *)
Lemma compile_failure_has_status_200 (w w' w'' : world) (j j' j'' : job)
        (pre : list event) (e : event) :
  valid env j ->
  has_compile_step env j = true ->
  first_settling_event compile_settles (compileEvents w) = (pre, e) ->
  compile_fails e = true ->
  code j' = "" \/ includes (language j') (supportedLanguages env) = false ->
  (exists r log,
      runCode env w j [] = (Returned r, log) /\
      status r = Some 200%Z /\ output r = "" /\ error r <> "") /\
  (exists t,
      runCode env w' j' [] = (Thrown t, []) /\ t_status t = 400%Z) /\
  (forall r, fst (runCode env w'' j'' []) = Returned r ->
             status r = None \/ status r = Some 200%Z).
Proof.
  intros Hv Hs Hfs Hf Hinv. split; [|split].
  - eexists _, _. split; [apply (runCode_compile_failure w j pre e Hv Hs Hfs Hf)|].
    cbn [status output error]. repeat split.
    destruct e; simpl in Hf; try discriminate; simpl; try discriminate.
    apply js_or_nonempty, js_or_nonempty. discriminate.
  - destruct (String.eqb_spec (code j') "") as [Hc | Hc].
    + eexists. rewrite (runCode_empty_code env w' j' _ Hc). split; reflexivity.
    + destruct Hinv as [H | H]; [contradiction|].
      eexists. rewrite (runCode_unsupported env w' j' _ Hc H). split; reflexivity.
  - intros r Hr.
    destruct (String.eqb_spec (code j'') "") as [Hc | Hc].
    { rewrite (runCode_empty_code env w'' j'' _ Hc) in Hr. discriminate. }
    destruct (includes (language j'') (supportedLanguages env)) eqn:Hl.
    2:{ rewrite (runCode_unsupported env w'' j'' _ Hc Hl) in Hr. discriminate. }
    assert (Hv'' : valid env j'') by (split; assumption).
    destruct (has_compile_step env j'') eqn:Hs''.
    + destruct (first_settling_event compile_settles (compileEvents w''))
        as [pre'' e''] eqn:Hfs''.
      destruct (compile_fails e'') eqn:Hf''.
      * rewrite (runCode_compile_failure w'' j'' pre'' e'' Hv'' Hs'' Hfs'' Hf'') in Hr.
        injection Hr as <-. now right.
      * rewrite (runCode_execute_resolution w'' j''
                   (compile_success_reaches_execute w'' j'' pre'' e'' Hv'' Hfs'' Hf''))
          in Hr.
        injection Hr as <-. now left.
    + rewrite (runCode_execute_resolution w'' j'') in Hr
        by (split; [assumption | now left]).
      injection Hr as <-. now left.
Qed.

End Phases.

(** C9.  In the compile phase and in the execute phase alike, [resolve]
    or [reject] is called exactly once in a run ([calls] is 1), and the
    promise holds the value of the first settling event: exit, [error] or
    timer for the compile promise; [close], [error] or timer for the
    execute promise (or the early [resolve] of the executor).  Each of the
    settling callbacks leaves [isResolved] set, and once it is set,
    delivering any event leaves the promise and the log of effects as they
    are. *)
Theorem promise_settled_exactly_once
        (language command : string) (args : option (list string))
        (evs : list event) (w : execWorld) (spec : commandSpec) (input : string)
        (cst : Compile.state) (est : Execute.state) (late : event) :
  Compile.isResolved cst = true ->
  Execute.isResolved est = true ->
  Compile.outcome (Compile.run language command args evs)
  = mkPromise (Some (compile_resolution language evs)) 1 /\
  Execute.outcome (Execute.run w spec input)
  = mkPromise (Some (exec_resolution w spec)) 1 /\
  (Compile.outcome (Compile.deliver language cst late) = Compile.outcome cst /\
   Compile.log (Compile.deliver language cst late) = Compile.log cst /\
   Compile.isResolved (Compile.deliver language cst late) = true) /\
  (Execute.outcome (Execute.deliver w est late) = Execute.outcome est /\
   Execute.log (Execute.deliver w est late) = Execute.log est /\
   Execute.isResolved (Execute.deliver w est late) = true) /\
  (forall st m c,
      Compile.isResolved (Compile.onError language m st) = true /\
      Compile.isResolved (Compile.onExit language c st) = true /\
      Compile.isResolved (Compile.onTimer language st) = true) /\
  (forall st m sg,
      Execute.isResolved (Execute.onError m st) = true /\
      Execute.isResolved (Execute.onClose sg st) = true /\
      Execute.isResolved (Execute.onTimer w st) = true).
Proof.
  intros Hc He.
  split; [apply compile_run_resolution|].
  split; [apply exec_run_resolution|].
  destruct (compile_deliver_resolved language late cst Hc) as (H1 & H2 & H3).
  destruct (exec_deliver_resolved w late est He) as (H4 & H5 & H6).
  split; [auto|]. split; [auto|]. split.
  - intros [ce co r t o l] m c.
    unfold Compile.onError, Compile.onExit, Compile.onTimer; simpl.
    destruct r; simpl; [auto|].
    destruct (Compile.code_nonzero c); simpl; auto.
  - intros [o er r t p l] m sg.
    unfold Execute.onError, Execute.onClose, Execute.onTimer, Execute.try_kill; simpl.
    destruct r; simpl; [auto|].
    destruct (killThrows w); simpl.
    + destruct sg as [s|]; [destruct (truthy s)|]; simpl; auto.
    + destruct sg as [s|]; [destruct (truthy s)|]; simpl; auto.
Qed.

(** ** The Java runner *)

Section JavaFacts.

Variable codePath : string -> string.
Variable now : Z.

Lemma error_free_app (l1 l2 : list event) :
  error_free (l1 ++ l2) = error_free l1 && error_free l2.
Proof. unfold error_free. apply forallb_app. Qed.

Lemma java_fold_quiet (pre : list event) :
  forall st,
    quiet java_settles pre = true ->
    error_free pre = true ->
    JavaRunner.hostAlive st = true ->
    fold_left JavaRunner.deliver pre st
    = JavaRunner.mkState (JavaRunner.outputString st ++ stdout_of pre)
                         (JavaRunner.errorString st ++ stderr_of pre)
                         (JavaRunner.timerArmed st) (JavaRunner.outcome st)
                         (JavaRunner.log st) true.
Proof.
  induction pre as [|e pre IH]; intros [o er t p l a] Hq He Ha; simpl in *; subst a.
  - now rewrite !append_empty_r.
  - apply andb_prop in Hq as [Hq1 Hq]. apply andb_prop in He as [He1 He].
    destruct e; simpl in Hq1, He1; try discriminate;
      unfold JavaRunner.deliver; simpl;
      rewrite IH by (assumption || reflexivity); simpl;
      now rewrite ?append_assoc.
Qed.

(** No callback of the Java runner has an effect on the child, and none
    changes a promise that is settled. *)
Lemma java_deliver_keeps (e : event) (st : JavaRunner.state) :
  JavaRunner.log (JavaRunner.deliver st e) = JavaRunner.log st /\
  (forall v, settled (JavaRunner.outcome st) = Some v ->
             settled (JavaRunner.outcome (JavaRunner.deliver st e)) = Some v) /\
  (forall v, settled (JavaRunner.outcome st) = Some v ->
             JavaRunner.hostAlive (JavaRunner.deliver st e) = JavaRunner.hostAlive st).
Proof.
  destruct st as [o er t [s n] l a]. unfold JavaRunner.deliver.
  destruct a; simpl; [|auto].
  destruct e; simpl; auto.
  - unfold JavaRunner.onUnheardError; simpl. destruct s; simpl; auto.
    repeat split; intros v [=].
  - unfold JavaRunner.onExit; simpl. destruct (truthy er); simpl.
    + repeat split; auto. intros v ->. reflexivity.
    + repeat split; auto. intros v ->. reflexivity.
  - destruct t; simpl; [|auto].
    repeat split; auto. intros v ->. reflexivity.
Qed.

Lemma java_fold_keeps (evs : list event) :
  forall st,
    JavaRunner.log (fold_left JavaRunner.deliver evs st) = JavaRunner.log st /\
    (forall v, settled (JavaRunner.outcome st) = Some v ->
               settled (JavaRunner.outcome (fold_left JavaRunner.deliver evs st))
               = Some v /\
               JavaRunner.hostAlive (fold_left JavaRunner.deliver evs st)
               = JavaRunner.hostAlive st).
Proof.
  induction evs as [|e evs IH]; intros st; simpl; [auto|].
  destruct (java_deliver_keeps e st) as (H1 & H2 & H3).
  destruct (IH (JavaRunner.deliver st e)) as (H4 & H5).
  split; [now rewrite H4|]. intros v Hv.
  destruct (H5 v (H2 v Hv)) as (H6 & H7).
  split; [exact H6 | now rewrite H7, (H3 v Hv)].
Qed.

Lemma java_executor_state (codeFile : string) (inputs : option string) :
  JavaRunner.executor codePath codeFile inputs
  = JavaRunner.mkState "" "" true pending
      (JavaRunner.log (JavaRunner.executor codePath codeFile inputs)) true.
Proof.
  unfold JavaRunner.executor. destruct (truthy_opt inputs); reflexivity.
Qed.

Lemma java_executor_no_kill (codeFile : string) (inputs : option string) :
  count is_kill (JavaRunner.log (JavaRunner.executor codePath codeFile inputs)) = 0.
Proof.
  unfold JavaRunner.executor. destruct (truthy_opt inputs); reflexivity.
Qed.

Lemma java_run_log (codeFile : string) (inputs : option string) (evs : list event) :
  JavaRunner.log (JavaRunner.run codePath codeFile inputs evs)
  = JavaRunner.log (JavaRunner.executor codePath codeFile inputs).
Proof.
  unfold JavaRunner.run.
  destruct (java_deliver_keeps TimerEv
              (fold_left JavaRunner.deliver evs
                 (JavaRunner.executor codePath codeFile inputs))) as (-> & _).
  now destruct (java_fold_keeps evs (JavaRunner.executor codePath codeFile inputs))
    as (-> & _).
Qed.

Lemma java_run_decided (codeFile : string) (inputs : option string)
      (evs pre : list event) (e : event) :
  error_free evs = true ->
  first_settling_event java_settles evs = (pre, e) ->
  settled (JavaRunner.outcome (JavaRunner.run codePath codeFile inputs evs))
  = Some (java_settlement pre e) /\
  JavaRunner.log (JavaRunner.run codePath codeFile inputs evs)
  = JavaRunner.log (JavaRunner.executor codePath codeFile inputs) /\
  JavaRunner.hostAlive (JavaRunner.run codePath codeFile inputs evs) = true.
Proof.
  intros Hef H.
  split; [|split; [apply java_run_log|]].
  - unfold JavaRunner.run.
    destruct (first_settling_event_spec _ _ _ _ H)
      as (Hq & [(post & -> & He) | (-> & ->)]).
    + rewrite error_free_app in Hef. apply andb_prop in Hef as [Hef1 Hef2].
      rewrite fold_left_app. cbn [fold_left].
      rewrite (java_fold_quiet pre _ Hq Hef1), java_executor_state by
        (rewrite java_executor_state; reflexivity).
      cbn [JavaRunner.outputString JavaRunner.errorString JavaRunner.timerArmed
           JavaRunner.outcome JavaRunner.log String.append].
      apply (proj1 (proj2 (java_deliver_keeps TimerEv _))).
      apply (proj2 (java_fold_keeps post _)).
      destruct e as [d|d|m|c sg|c sg|]; simpl in He; try discriminate;
        unfold JavaRunner.deliver; simpl.
      * unfold JavaRunner.onExit; simpl. destruct (truthy (stderr_of pre)); reflexivity.
      * reflexivity.
    + rewrite (java_fold_quiet pre _ Hq Hef), java_executor_state by
        (rewrite java_executor_state; reflexivity).
      reflexivity.
  - unfold JavaRunner.run.
    assert (Hall : forall l st, error_free l = true ->
                     JavaRunner.hostAlive st = true ->
                     JavaRunner.hostAlive (fold_left JavaRunner.deliver l st) = true).
    { induction l as [|x l IH]; intros st Hl Ha; simpl; [assumption|].
      simpl in Hl. apply andb_prop in Hl as [Hx Hl]. apply IH; [assumption|].
      destruct st as [o er t p lg a]; simpl in Ha; subst a.
      unfold JavaRunner.deliver; simpl.
      destruct x; simpl in Hx; try discriminate; simpl; auto.
      - unfold JavaRunner.onExit. simpl. destruct (truthy er); reflexivity.
      - destruct t; reflexivity. }
    assert (Ha : JavaRunner.hostAlive
                   (fold_left JavaRunner.deliver evs
                      (JavaRunner.executor codePath codeFile inputs)) = true).
    { apply Hall; [assumption|]. now rewrite java_executor_state. }
    destruct (fold_left JavaRunner.deliver evs
                (JavaRunner.executor codePath codeFile inputs)) as [o er t p lg a].
    simpl in Ha; subst a. unfold JavaRunner.deliver; simpl.
    destruct t; reflexivity.
Qed.

(** In a run without [error] events the Java runner returns the record of
    the first settling event. *)
Lemma java_runCode_decided (codeFile : string) (inputs : option string)
      (evs pre : list event) (e : event) :
  error_free evs = true ->
  first_settling_event java_settles evs = (pre, e) ->
  JavaRunner.runCode codePath now evs codeFile inputs []
  = (Returned (java_result now (java_settlement pre e)),
     JavaRunner.log (JavaRunner.executor codePath codeFile inputs)).
Proof.
  intros Hef H.
  destruct (java_run_decided codeFile inputs evs pre e Hef H) as (Ho & Hl & Ha).
  unfold JavaRunner.runCode, bind, tell, await. simpl.
  rewrite Ha, Ho, Hl. unfold java_result.
  destruct (java_settlement pre e); reflexivity.
Qed.

(** The effects of a run of the Java runner are those of its executor,
    whatever the events. *)
Lemma java_runCode_log (codeFile : string) (inputs : option string)
      (evs : list event) :
  snd (JavaRunner.runCode codePath now evs codeFile inputs [])
  = JavaRunner.log (JavaRunner.executor codePath codeFile inputs).
Proof.
  unfold JavaRunner.runCode, bind, tell, await, die. simpl.
  rewrite java_run_log.
  destruct (JavaRunner.hostAlive _); [|reflexivity].
  destruct (settled _) as [[o|er]|]; reflexivity.
Qed.

Lemma java_runCode_never_kills (codeFile : string) (inputs : option string)
      (evs : list event) :
  count is_kill (snd (JavaRunner.runCode codePath now evs codeFile inputs [])) = 0.
Proof.
  rewrite java_runCode_log. apply java_executor_no_kill.
Qed.

End JavaFacts.

(** Both timers of [run-code/index.js] kill the child with SIGKILL before
    they settle the promise; in the execute phase a throwing [kill]
    changes nothing. *)
Lemma pipeline_timers_kill (language command : string) (args : option (list string))
      (evs cpre : list event) (w : execWorld) (spec : commandSpec) (input : string)
      (epre : list event) :
  first_settling_event compile_settles evs = (cpre, TimerEv) ->
  exec_started w spec ->
  first_settling_event exec_settles (execEvents w) = (epre, TimerEv) ->
  Compile.log (Compile.run language command args evs)
  = [EffSpawn CompilePhase command (args_or_empty args) None;
     EffSetTimeout CompilePhase 5000;
     EffKill CompilePhase "SIGKILL"] /\
  Execute.log (Execute.run w spec input)
  = (exec_base w spec input ++ [EffKill ExecutePhase "SIGKILL"])%list /\
  settled (Execute.outcome (Execute.run w spec input))
  = Some (mkExecResult (stdout_of epre) (stderr_of epre ++ timeout_notice)).
Proof.
  intros Hc Hs He.
  destruct (compile_run_decided language command args evs cpre TimerEv Hc) as (_ & H1).
  destruct (exec_run_decided w spec input epre TimerEv Hs He) as (H2 & H3).
  rewrite H1, H2, H3. auto.
Qed.

(** The Java runner drops stdout: the program wrote [partial] to stdout and
    [warning] to stderr and exited with code 1; the record returned has the
    stderr text in [error] and no [output]. *)
Lemma java_runner_drops_stdout :
  stdout_of javaExit1 = "partial" /\
  exists res log,
    JavaRunner.runCode (fun p => p) 0 javaExit1 "Main.java" None []
    = (Returned res, log) /\
    JavaRunner.success res = false /\
    JavaRunner.error res = Some "warning" /\
    JavaRunner.output res <> Some "partial".
Proof.
  split; [reflexivity|].
  eexists _, _. split; [reflexivity|].
  simpl. repeat split. discriminate.
Qed.

(** C6 on the Java runner: the program is still running when the 8 s
    timer fires.  The promise is rejected with the timeout message and
    the runner returns; the only effects of the run are the [spawn] and
    the [setTimeout]: the child is never killed. *)
Theorem java_runner_timeout_never_kills :
  JavaRunner.runCode (fun p => p) 0 javaLoop "Main.java" None []
  = (Returned (JavaRunner.mkResult false 0 None
                 (Some "Error: Timed Out. Your code took too long to execute, over 8 seconds.")),
     [EffSpawn ExecutePhase "java" ["../codes/Main.java"] None;
      EffSetTimeout ExecutePhase 8000]) /\
  count is_kill
    (snd (JavaRunner.runCode (fun p => p) 0 javaLoop "Main.java" None [])) = 0 /\
  count is_kill (snd (runCode demoEnv worldExecTimeout jobC [])) = 1.
Proof. repeat split. Qed.

(** C3 fails on a compile error: the compiler exits with code 1, the
    compile promise is rejected, and [runCode] returns a response instead
    of throwing. *)
Lemma compile_error_is_not_thrown :
  settled (Compile.outcome (compileRun demoEnv worldCompileExit1 jobC))
  = Some (Compile.Rejected (mkCompileResult 200 "" "boom" "c")) /\
  (forall t, fst (runCode demoEnv worldCompileExit1 jobC []) <> Thrown t) /\
  exists r, fst (runCode demoEnv worldCompileExit1 jobC []) = Returned r /\
            status r = Some 200%Z.
Proof.
  split; [reflexivity|]. split; [intros t; discriminate|].
  eexists. split; reflexivity.
Qed.

(** C4 fails on a compile timeout: the compiler had written [boom] to
    stderr when the timer fired, and the error text returned is not the
    captured stderr. *)
Lemma compile_timeout_drops_stderr :
  first_settling_event compile_settles (compileEvents worldCompileTimeout)
  = ([StderrData "boom"], TimerEv) /\
  stderr_of [StderrData "boom"] = "boom" /\
  exists r log,
    runCode demoEnv worldCompileTimeout jobC [] = (Returned r, log) /\
    error r = "Compilation timed out" /\
    error r <> js_or (stderr_of [StderrData "boom"])
                     (js_or (stdout_of [StderrData "boom"]) "Compilation failed").
Proof.
  split; [reflexivity|]. split; [reflexivity|].
  eexists _, _. split; [vm_compute; reflexivity|]. split; [reflexivity|].
  simpl. discriminate.
Qed.

(** ** The statements at concrete runs *)

(** C2 at a run that writes [hi] and [warn] before the timer fires. *)
Lemma timeout_keeps_partial_output_witness :
  exists r log,
    runCode demoEnv worldExecTimeout jobC [] = (Returned r, log) /\
    output r = stdout_of [StdoutData "hi"; StderrData "warn"] /\
    error r = stderr_of [StdoutData "hi"; StderrData "warn"]
              ++ nl ++ "Execution timed out after 10 seconds".
Proof.
  apply (timeout_keeps_partial_output demoEnv worldExecTimeout jobC
           [StdoutData "hi"; StderrData "warn"]).
  - split; [split; [discriminate | reflexivity]|]. right. reflexivity.
  - split; reflexivity.
  - reflexivity.
Defined.

(** C7 at a job without code. *)
Lemma invalid_job_rejected_without_effects_witness :
  exists t,
    runCode demoEnv worldExecExit3 jobNoCode [] = (Thrown t, []) /\
    t_status t = 400%Z /\
    count is_create (snd (runCode demoEnv worldExecExit3 jobNoCode [])) = 0 /\
    count is_spawn (snd (runCode demoEnv worldExecExit3 jobNoCode [])) = 0.
Proof.
  apply (invalid_job_rejected_without_effects demoEnv worldExecExit3 jobNoCode).
  left. reflexivity.
Defined.

(** C8 at an interpreter that is not installed. *)
Lemma unavailable_executable_reported_witness :
  exists r log,
    runCode demoEnv worldSpawnError jobPy [] = (Returned r, log) /\
    output r = "" /\
    error r = "Runtime error: spawn python3 ENOENT" /\
    error r <> "" /\
    ("Runtime error: spawn python3 ENOENT" = "Executable not found" \/
     exists m, "Runtime error: spawn python3 ENOENT" = "Runtime error: " ++ m) /\
    count is_remove log = 1 /\
    (truthy_opt (executeCodeCommand (specOf demoEnv jobPy)) = false ->
     count (is_spawn_in ExecutePhase) log = 0).
Proof.
  apply (unavailable_executable_reported demoEnv worldSpawnError jobPy
           "Runtime error: spawn python3 ENOENT").
  - split; [split; [discriminate | reflexivity]|]. left. reflexivity.
  - apply (SpawnErrorEvent (execWorldOf worldSpawnError) (specOf demoEnv jobPy)
             "spawn python3 ENOENT" []).
    + split; reflexivity.
    + reflexivity.
Defined.

(** C9 at a compiler that exits twice and a program that closes after the
    timer. *)
Lemma promise_settled_exactly_once_witness :
  Compile.outcome
    (Compile.run "c" "gcc" None [ExitEv (Some 0%Z) None; ExitEv (Some 1%Z) None; TimerEv])
  = mkPromise (Some Compile.Resolved) 1 /\
  Execute.outcome
    (Execute.run (execWorldOf worldExecTimeout) (specOf demoEnv jobC) "")
  = mkPromise (Some (mkExecResult "hi" ("warn" ++ timeout_notice))) 1.
Proof.
  destruct (promise_settled_exactly_once "c" "gcc" None
              [ExitEv (Some 0%Z) None; ExitEv (Some 1%Z) None; TimerEv]
              (execWorldOf worldExecTimeout) (specOf demoEnv jobC) ""
              (Compile.run "c" "gcc" None [])
              (Execute.run (execWorldOf worldExecTimeout) (specOf demoEnv jobC) "")
              TimerEv eq_refl eq_refl)
    as (H1 & H2 & _).
  split; [exact H1 | exact H2].
Defined.

(** ** The terminal paths of [runCode], run *)

Example run_compile_exit_nonzero :
  runCode demoEnv worldCompileExit1 jobC []
  = (Returned (mkResponse (Some 200%Z) "" "boom" "c" "about c"),
     [EffCreateCodeFile "c" "int main(){}";
      EffSpawn CompilePhase "gcc" ["job1.c"; "-o"; "job1.out"] None;
      EffSetTimeout CompilePhase 5000;
      EffClearTimeout CompilePhase;
      EffRemoveCodeFile "job1" "c" (Some "out");
      EffInfo "c"]).
Proof. reflexivity. Qed.

Example run_compile_timeout :
  runCode demoEnv worldCompileTimeout jobC []
  = (Returned (mkResponse (Some 200%Z) "" "Compilation timed out" "c" "about c"),
     [EffCreateCodeFile "c" "int main(){}";
      EffSpawn CompilePhase "gcc" ["job1.c"; "-o"; "job1.out"] None;
      EffSetTimeout CompilePhase 5000;
      EffKill CompilePhase "SIGKILL";
      EffRemoveCodeFile "job1" "c" (Some "out");
      EffInfo "c"]).
Proof. reflexivity. Qed.

Example run_compile_spawn_error :
  fst (runCode demoEnv (mkWorld [ErrorEv "spawn gcc ENOENT"] (quietExec [])) jobC [])
  = Returned (mkResponse (Some 200%Z) "" "Compilation error: spawn gcc ENOENT"
                         "c" "about c").
Proof. reflexivity. Qed.

Example run_missing_execute_command :
  runCode demoEnv worldExecExit3 jobTxt []
  = (Returned (mkResponse None "" "Executable not found" "txt" "about txt"),
     [EffCreateCodeFile "txt" "hello";
      EffRemoveCodeFile "job1" "txt" None;
      EffInfo "txt"]).
Proof. reflexivity. Qed.

Example run_execute_spawn_throws :
  runCode demoEnv (mkWorld [] (mkExecWorld (Some "EINVAL") false false false [])) jobPy []
  = (Returned (mkResponse None "" "Runtime error: EINVAL" "py" "about py"),
     [EffCreateCodeFile "py" "print(input())";
      EffSpawn ExecutePhase "python3" ["job1.py"] (Some 10000%Z);
      EffRemoveCodeFile "job1" "py" None;
      EffInfo "py"]).
Proof. reflexivity. Qed.

Example run_execute_timeout :
  runCode demoEnv worldExecTimeout jobC []
  = (Returned (mkResponse None "hi"
                 ("warn" ++ nl ++ "Execution timed out after 10 seconds")
                 "c" "about c"),
     [EffCreateCodeFile "c" "int main(){}";
      EffSpawn CompilePhase "gcc" ["job1.c"; "-o"; "job1.out"] None;
      EffSetTimeout CompilePhase 5000;
      EffClearTimeout CompilePhase;
      EffSpawn ExecutePhase "job1.out" [] (Some 10000%Z);
      EffSetTimeout ExecutePhase 10000;
      EffStdinEnd;
      EffKill ExecutePhase "SIGKILL";
      EffRemoveCodeFile "job1" "c" (Some "out");
      EffInfo "c"]).
Proof. reflexivity. Qed.

Example run_normal_completion :
  runCode demoEnv worldExecExit3 jobPy []
  = (Returned (mkResponse None "hi" "oops" "py" "about py"),
     [EffCreateCodeFile "py" "print(input())";
      EffSpawn ExecutePhase "python3" ["job1.py"] (Some 10000%Z);
      EffSetTimeout ExecutePhase 10000;
      EffStdinWrite "42";
      EffStdinEnd;
      EffClearTimeout ExecutePhase;
      EffRemoveCodeFile "job1" "py" None;
      EffInfo "py"]).
Proof. reflexivity. Qed.

Example run_signal_termination :
  fst (runCode demoEnv
         (mkWorld [] (quietExec [StderrData "x"; CloseEv None (Some "SIGSEGV")]))
         jobPy [])
  = Returned (mkResponse None ""
                ("x" ++ nl ++ "Process terminated by signal: SIGSEGV")
                "py" "about py").
Proof. reflexivity. Qed.

(** ** The whole run, from the first settling events *)

Section WholeRun.

Context {Metadata : Type} (env : collaborators Metadata).

Lemma execute_log_explained (w : world) (j : job) :
  Execute.log (executeRun env w j) = execute_log env w j.
Proof.
  unfold executeRun, execute_log.
  destruct (truthy_opt (executeCodeCommand (specOf env j))) eqn:Hc; simpl.
  2:{ now destruct (exec_run_missing (execWorldOf w) (specOf env j) (input j) Hc). }
  destruct (spawnThrows (execWorldOf w)) as [m|] eqn:Hs.
  { now destruct (exec_run_spawn_throws (execWorldOf w) (specOf env j) (input j) m Hc Hs). }
  unfold exec_decider.
  destruct (first_settling_event exec_settles (execEvents (execWorldOf w)))
    as [pre e] eqn:Hfs.
  destruct (exec_run_decided (execWorldOf w) (specOf env j) (input j) pre e
              (conj Hc Hs) Hfs) as (_ & ->).
  rewrite (exec_base_started _ _ _ (conj Hc Hs)). reflexivity.
Qed.

Lemma compile_effects_explained (w : world) (j : job) :
  compile_effects env w j = compile_log env w j.
Proof.
  unfold compile_effects, compile_log, compileRun, compile_decider.
  destruct (has_compile_step env j); [|reflexivity].
  destruct (first_settling_event compile_settles (compileEvents w)) as [pre e] eqn:Hfs.
  now destruct (compile_run_decided (language j) (compile_command (specOf env j))
                  (compilationArgs (specOf env j)) (compileEvents w) pre e Hfs)
    as (_ & ->).
Qed.

(** [runCode] completes the way, and with the effects, that the first
    settling event of each phase decides. *)
Lemma runCode_explained (w : world) (j : job) :
  runCode env w j [] = (completion_of env w j, effects_of env w j).
Proof.
  unfold completion_of, effects_of, passes_validation.
  destruct (String.eqb_spec (code j) "") as [Hc | Hc].
  { now rewrite (runCode_empty_code env w j [] Hc). }
  destruct (includes (language j) (supportedLanguages env)) eqn:Hl; simpl.
  2:{ now rewrite (runCode_unsupported env w j [] Hc Hl). }
  assert (Hv : valid env j) by (split; assumption).
  unfold compile_failed.
  destruct (has_compile_step env j) eqn:Hs; simpl.
  - unfold compile_decider.
    destruct (first_settling_event compile_settles (compileEvents w)) as [pre e] eqn:Hfs.
    cbn [fst snd].
    destruct (compile_fails e) eqn:Hf.
    + rewrite (runCode_compile_failure env w j pre e Hv Hs Hfs Hf).
      unfold compile_log, compile_decider. rewrite Hs, Hfs. reflexivity.
    + rewrite (runCode_execute_resolution env w j
                 (compile_success_reaches_execute env w j pre e Hv Hfs Hf)).
      now rewrite compile_effects_explained, execute_log_explained.
  - rewrite (runCode_execute_resolution env w j) by (split; [assumption | now left]).
    now rewrite compile_effects_explained, execute_log_explained.
Qed.

End WholeRun.

(** ** Counting the effects of a run *)

Lemma count_cons (f : effect -> bool) (e : effect) (l : list effect) :
  count f (e :: l) = Nat.b2n (f e) + count f l.
Proof. unfold count. simpl. destruct (f e); reflexivity. Qed.

Lemma count_nil (f : effect -> bool) : count f [] = 0.
Proof. reflexivity. Qed.

Lemma count_stdin_effects (f : effect -> bool) (w : execWorld) (input : string) :
  f EffStdinEnd = false ->
  (forall d, f (EffStdinWrite d) = false) ->
  count f (stdin_effects w input) = 0.
Proof.
  intros He Hw. unfold stdin_effects.
  destruct (negb (input =? "")), (stdinWriteThrows w);
    rewrite ?count_cons, ?Hw, ?He; reflexivity.
Qed.

Lemma passes_validation_valid {Metadata : Type} (env : collaborators Metadata) (j : job) :
  valid env j -> passes_validation env j = true.
Proof.
  intros [Hc Hl]. unfold passes_validation. rewrite Hl.
  destruct (String.eqb_spec (code j) ""); [contradiction | reflexivity].
Qed.

Lemma closing_of_timer (ph : phase) (e : event) :
  closing_of ph e = if is_timer e then EffKill ph "SIGKILL" else EffClearTimeout ph.
Proof. destruct e; reflexivity. Qed.

(** Rewrites the log of a run of a valid job into its explicit form and
    splits the counts along it. *)
Ltac open_log env w j Hv :=
  rewrite (runCode_explained env w j); cbn [snd fst];
  unfold effects_of; rewrite (passes_validation_valid env j Hv);
  unfold compile_log, execute_log, cleanup;
  rewrite !closing_of_timer.

Ltac count_effects :=
  repeat (rewrite count_cons || rewrite count_app || rewrite count_nil);
  rewrite ?count_stdin_effects by (reflexivity || (intros; reflexivity));
  cbn [is_spawn is_spawn_in is_kill is_set_timeout is_clear_timeout
       is_stdin_write is_stdin_end is_info is_remove is_create
       closing_of Nat.b2n Nat.add andb negb orb is_timer].

Section Counts.

Context {Metadata : Type} (env : collaborators Metadata).

(** X1.  A valid job spawns the compiler once if its language has a compile
    command and not at all otherwise; it spawns the program once if the
    compile step did not fail and the execute command is present, and not
    at all otherwise.  No run spawns more than two processes. *)
Theorem spawn_counts (w : world) (j : job) :
  valid env j ->
  count (is_spawn_in CompilePhase) (snd (runCode env w j []))
  = Nat.b2n (has_compile_step env j) /\
  count (is_spawn_in ExecutePhase) (snd (runCode env w j []))
  = Nat.b2n (execute_spawns env w j) /\
  count is_spawn (snd (runCode env w j []))
  = Nat.b2n (has_compile_step env j) + Nat.b2n (execute_spawns env w j) /\
  count is_spawn (snd (runCode env w j [])) <= 2.
Proof.
  intros Hv. open_log env w j Hv.
  unfold execute_spawns, compile_failed.
  destruct (has_compile_step env j); cbn [andb negb];
    destruct (compile_fails (snd (compile_decider w)));
    destruct (truthy_opt (executeCodeCommand (specOf env j)));
    destruct (spawnThrows (execWorldOf w));
    destruct (is_timer (snd (compile_decider w)));
    destruct (is_timer (snd (exec_decider w)));
    cbn [negb andb]; count_effects; repeat split; lia.
Qed.


(** X3.  A valid job kills a child exactly when a timer is the first settling
    event of a phase it has started: once for a compile step that times
    out, once for a program that times out, never for a child that ends
    or fails to start on its own. *)
Theorem kills_only_on_timeout (w : world) (j : job) :
  valid env j ->
  count is_kill (snd (runCode env w j []))
  = Nat.b2n (has_compile_step env j && is_timer (snd (compile_decider w)))
    + Nat.b2n (execute_started env w j && is_timer (snd (exec_decider w))).
Proof.
  intros Hv. open_log env w j Hv.
  unfold execute_started, execute_spawns, compile_failed.
  destruct (has_compile_step env j); cbn [andb negb];
    destruct (truthy_opt (executeCodeCommand (specOf env j)));
    destruct (spawnThrows (execWorldOf w));
    destruct (snd (compile_decider w)) as [d|d|m|c sg|c sg|];
    cbn [compile_fails is_timer]; try destruct (Compile.code_nonzero c);
    destruct (is_timer (snd (exec_decider w)));
    cbn [negb andb]; count_effects; reflexivity.
Qed.

(** X4.  The stdin of a started program: the input is written exactly when it
    is not empty, and stdin is ended exactly once unless the write threw.
    A run that does not start the program touches no stdin. *)
Theorem stdin_written_and_ended (w : world) (j : job) :
  valid env j ->
  count is_stdin_write (snd (runCode env w j []))
  = Nat.b2n (execute_started env w j && negb (input j =? "")) /\
  count is_stdin_end (snd (runCode env w j []))
  = Nat.b2n (execute_started env w j
             && ((input j =? "") || negb (stdinWriteThrows (execWorldOf w)))) /\
  (execute_started env w j = true -> input j <> "" ->
   In (EffStdinWrite (input j)) (snd (runCode env w j []))).
Proof.
  intros Hv. open_log env w j Hv.
  unfold execute_started, execute_spawns, compile_failed, stdin_effects.
  destruct (String.eqb_spec (input j) "") as [Hi | Hi]; cbn [negb];
    destruct (has_compile_step env j); cbn [andb negb];
    destruct (truthy_opt (executeCodeCommand (specOf env j)));
    destruct (spawnThrows (execWorldOf w));
    destruct (stdinWriteThrows (execWorldOf w));
    destruct (compile_fails (snd (compile_decider w)));
    destruct (is_timer (snd (compile_decider w)));
    destruct (is_timer (snd (exec_decider w)));
    cbn [negb andb orb]; count_effects;
    (split; [reflexivity | split; [reflexivity|]]);
    intros Hst Hne; try discriminate; try contradiction;
    cbn [app In]; auto 12.
Qed.

End Counts.

(** ** What the response and the log depend on *)

Lemma stdout_of_erase (evs : list event) :
  stdout_of (map erase_code evs) = stdout_of evs.
Proof.
  induction evs as [|e evs IH]; [reflexivity|].
  destruct e; simpl; now rewrite ?IH.
Qed.

Lemma stderr_of_erase (evs : list event) :
  stderr_of (map erase_code evs) = stderr_of evs.
Proof.
  induction evs as [|e evs IH]; [reflexivity|].
  destruct e; simpl; now rewrite ?IH.
Qed.

Lemma first_settling_event_erase (evs : list event) :
  first_settling_event exec_settles (map erase_code evs)
  = (map erase_code (fst (first_settling_event exec_settles evs)),
     erase_code (snd (first_settling_event exec_settles evs))).
Proof.
  induction evs as [|e evs IH]; [reflexivity|].
  simpl. destruct e; simpl; try reflexivity;
    rewrite IH; destruct (first_settling_event exec_settles evs); reflexivity.
Qed.

Lemma exec_settlement_erase (pre : list event) (e : event) :
  exec_settlement (map erase_code pre) (erase_code e) = exec_settlement pre e.
Proof.
  unfold exec_settlement.
  destruct e as [d|d|m|c sg|c sg|]; simpl;
    rewrite ?stdout_of_erase, ?stderr_of_erase; reflexivity.
Qed.

Lemma first_settling_event_filter (settles keep : event -> bool) (evs : list event) :
  (forall e, settles e = true -> keep e = true) ->
  first_settling_event settles (filter keep evs)
  = (filter keep (fst (first_settling_event settles evs)),
     snd (first_settling_event settles evs)).
Proof.
  intros Hk. induction evs as [|e evs IH]; [reflexivity|].
  simpl. destruct (settles e) eqn:He.
  - rewrite (Hk e He). simpl. now rewrite He.
  - destruct (first_settling_event settles evs) as [pre x] eqn:Hfs.
    destruct (keep e) eqn:Hke; simpl.
    + rewrite He, IH. simpl. now rewrite Hke.
    + rewrite IH. simpl. now rewrite Hke.
Qed.

Lemma stdout_of_filter (keep : event -> bool) (evs : list event) :
  (forall d, keep (StdoutData d) = true) ->
  stdout_of (filter keep evs) = stdout_of evs.
Proof.
  intros Hk. induction evs as [|e evs IH]; [reflexivity|].
  simpl. destruct (keep e) eqn:He.
  - destruct e; simpl; now rewrite ?IH.
  - destruct e; simpl; try assumption. now rewrite Hk in He.
Qed.

Lemma stderr_of_filter (keep : event -> bool) (evs : list event) :
  (forall d, keep (StderrData d) = true) ->
  stderr_of (filter keep evs) = stderr_of evs.
Proof.
  intros Hk. induction evs as [|e evs IH]; [reflexivity|].
  simpl. destruct (keep e) eqn:He.
  - destruct e; simpl; now rewrite ?IH.
  - destruct e; simpl; try assumption. now rewrite Hk in He.
Qed.

Section Dependence.

Context {Metadata : Type} (env : collaborators Metadata).

Lemma exec_resolution_decider (w : world) (spec : commandSpec) :
  exec_resolution (execWorldOf w) spec
  = if negb (truthy_opt (executeCodeCommand spec)) then
      mkExecResult "" "Executable not found"
    else
      match spawnThrows (execWorldOf w) with
      | Some message => mkExecResult "" ("Runtime error: " ++ message)
      | None => exec_settlement (fst (exec_decider w)) (snd (exec_decider w))
      end.
Proof.
  unfold exec_resolution, exec_decider.
  destruct (first_settling_event exec_settles (execEvents (execWorldOf w)));
    reflexivity.
Qed.

(** X5.  The exit code of the program is not reported: two runs that differ
    only in the codes carried by the [exit] and [close] events of the
    execute phase return the same response with the same effects. *)
Theorem exit_code_is_not_reported (w : world) (j : job) :
  runCode env (erase_exit_codes w) j [] = runCode env w j [].
Proof.
  rewrite !runCode_explained.
  assert (Hd : exec_decider (erase_exit_codes w)
               = (map erase_code (fst (exec_decider w)),
                  erase_code (snd (exec_decider w)))).
  { unfold exec_decider, erase_exit_codes. cbn [execWorldOf execEvents].
    apply first_settling_event_erase. }
  f_equal.
  - unfold completion_of, compile_failed.
    rewrite !exec_resolution_decider, Hd. cbn [fst snd].
    rewrite exec_settlement_erase. reflexivity.
  - unfold effects_of, compile_failed, compile_log, execute_log.
    rewrite Hd. cbn [snd].
    replace (closing_of ExecutePhase (erase_code (snd (exec_decider w))))
      with (closing_of ExecutePhase (snd (exec_decider w)))
      by (destruct (snd (exec_decider w)); reflexivity).
    reflexivity.
Qed.

(** X6.  The compile phase listens to [exit] and not to [close], the execute
    phase to [close] and not to [exit]: a run without the [close] events
    of the compiler and the [exit] events of the program returns the same
    response with the same effects. *)
Theorem unheard_events_change_nothing (w : world) (j : job) :
  runCode env (drop_unheard w) j [] = runCode env w j [].
Proof.
  rewrite !runCode_explained.
  assert (Hc : compile_decider (drop_unheard w)
               = (filter (fun e => negb (is_close e)) (fst (compile_decider w)),
                  snd (compile_decider w))).
  { unfold compile_decider, drop_unheard. cbn [compileEvents].
    apply first_settling_event_filter. intros [] H; try discriminate; reflexivity. }
  assert (He : exec_decider (drop_unheard w)
               = (filter (fun e => negb (is_exit e)) (fst (exec_decider w)),
                  snd (exec_decider w))).
  { unfold exec_decider, drop_unheard. cbn [execWorldOf execEvents].
    apply first_settling_event_filter. intros [] H; try discriminate; reflexivity. }
  f_equal.
  - unfold completion_of, compile_failed.
    rewrite !exec_resolution_decider, Hc, He. cbn [fst snd].
    unfold compile_error_text, exec_settlement.
    rewrite !stdout_of_filter, !stderr_of_filter by reflexivity.
    reflexivity.
  - unfold effects_of, compile_failed, compile_log, execute_log.
    rewrite Hc, He. reflexivity.
Qed.

(** X8.  Events after the first settling event of a phase, late data, a second
    [close], a timer that comes after the exit, change nothing: two runs
    with the same first settling events (and the same outcomes of [spawn]
    and [stdin.write]) return the same response with the same effects. *)
Theorem only_first_settling_events_matter (w w' : world) (j : job) :
  compile_decider w = compile_decider w' ->
  exec_decider w = exec_decider w' ->
  spawnThrows (execWorldOf w) = spawnThrows (execWorldOf w') ->
  stdinWriteThrows (execWorldOf w) = stdinWriteThrows (execWorldOf w') ->
  runCode env w j [] = runCode env w' j [].
Proof.
  intros Hc He Hs Hw. rewrite !runCode_explained.
  unfold completion_of, effects_of, compile_failed, compile_log, execute_log,
    stdin_effects.
  rewrite !exec_resolution_decider, Hc, He, Hs, Hw. reflexivity.
Qed.

(** X9.  What a compiler that exits with code 0 wrote is not part of the
    response: [output] and [error] are those of the execute phase alone,
    and two runs that differ only in what such a compiler wrote complete
    alike. *)
Theorem compiler_output_is_discarded (w w' : world) (j : job)
        (pre pre' : list event) (sg sg' : option string) :
  valid env j ->
  has_compile_step env j = true ->
  compile_decider w = (pre, ExitEv (Some 0%Z) sg) ->
  compile_decider w' = (pre', ExitEv (Some 0%Z) sg') ->
  execWorldOf w = execWorldOf w' ->
  runCode env w j [] = runCode env w' j [] /\
  fst (runCode env w j [])
  = Returned (mkResponse None
                (r_output (exec_resolution (execWorldOf w) (specOf env j)))
                (r_error (exec_resolution (execWorldOf w) (specOf env j)))
                (language j) (info env (language j))).
Proof.
  intros Hv Hs Hd Hd' Hw. rewrite !runCode_explained.
  unfold completion_of, effects_of, compile_failed, compile_log, execute_log,
    exec_decider.
  rewrite (passes_validation_valid env j Hv), Hs, Hd, Hd', Hw.
  destruct Hv as [Hc Hl]. rewrite Hl.
  destruct (String.eqb_spec (code j) ""); [contradiction|].
  split; reflexivity.
Qed.

(** X10.  The program's stderr text and the signal notice: when the first
    settling event of a started program is a [close] that carries a
    signal, [error] is the stderr text received so far followed by a line
    naming the signal, and [output] is the stdout text received so far. *)
Theorem signal_notice_is_appended (w : world) (j : job) (pre : list event)
        (c : option Z) (s : string) :
  reaches_execute env w j ->
  exec_started (execWorldOf w) (specOf env j) ->
  exec_decider w = (pre, CloseEv c (Some s)) ->
  s <> "" ->
  exists r log,
    runCode env w j [] = (Returned r, log) /\
    output r = stdout_of pre /\
    error r = stderr_of pre ++ nl ++ "Process terminated by signal: " ++ s.
Proof.
  intros Hre [Hc Hs] Hd Hne.
  eexists _, _. split; [apply (runCode_execute_resolution env w j Hre)|].
  rewrite exec_resolution_decider, Hc, Hs, Hd. cbn [negb fst snd exec_settlement].
  unfold truthy. destruct (String.eqb_spec s ""); [contradiction|].
  split; reflexivity.
Qed.

(** [runCode], the pipeline in a host that stays alive and whose compiler
    gets spawned: every response carries the language of the job and the
    metadata [info] gives for it, and [info] is called exactly once, as
    the last effect. *)
Lemma response_carries_language_and_info (w : world) (j : job) :
  valid env j ->
  exists r before,
    runCode env w j [] = (Returned r, (before ++ [EffInfo (language j)])%list) /\
    resp_language r = language j /\
    resp_info r = info env (language j) /\
    count is_info before = 0.
Proof.
  intros Hv.
  destruct (runCode_valid_shape env w j Hv) as (r & mid & Hrun & Hmid).
  pose proof (runCode_explained env w j) as Hex. rewrite Hrun in Hex.
  injection Hex as Hr _.
  assert (Hfields : resp_language r = language j /\
                    resp_info r = info env (language j)).
  { unfold completion_of in Hr. destruct Hv as [Hc Hl]. rewrite Hl in Hr.
    destruct (String.eqb_spec (code j) ""); [contradiction|].
    cbn [negb] in Hr.
    destruct (compile_failed env w j); injection Hr as ->; split; reflexivity. }
  exists r, (EffCreateCodeFile (language j) (code j) :: mid
             ++ [EffRemoveCodeFile (jobIDOf env j) (language j)
                   (outputExt (specOf env j))])%list.
  split; [|split; [apply Hfields | split; [apply Hfields|]]].
  - rewrite Hrun. unfold cleanup. f_equal. cbn [app].
    rewrite <- app_assoc. reflexivity.
  - rewrite count_cons, count_app, count_cons. cbn [is_info Nat.b2n].
    assert (H : count is_info mid = 0).
    { clear -Hmid. unfold count. induction mid as [|e mid IH]; [reflexivity|].
      simpl in Hmid. apply andb_prop in Hmid as [He Hm].
      simpl. destruct e; simpl in *; try discriminate; auto. }
    rewrite H. reflexivity.
Qed.


End Dependence.

(** ** More on the Java runner *)

Section JavaMore.

Variable codePath : string -> string.
Variable now : Z.

(** X13.  The Java runner writes and ends the child's stdin only when it is
    given a non-empty input; without one, stdin is neither written nor
    ended, whatever the child does. *)
Theorem java_stdin_only_with_inputs (codeFile : string) (inputs : option string)
        (evs : list event) :
  count is_stdin_write
    (snd (JavaRunner.runCode codePath now evs codeFile inputs []))
  = Nat.b2n (truthy_opt inputs) /\
  count is_stdin_end
    (snd (JavaRunner.runCode codePath now evs codeFile inputs []))
  = Nat.b2n (truthy_opt inputs).
Proof.
  rewrite (java_runCode_log codePath now codeFile inputs evs).
  unfold JavaRunner.executor.
  destruct (truthy_opt inputs); split; reflexivity.
Qed.

(** X14.  In a run without [error] events the Java runner always returns a
    record.  The record is a success exactly when the program exits before
    the timer having written nothing to stderr; a success carries the
    stdout text and no error, a failure carries an error and no output. *)
Theorem java_success_iff_clean_exit (codeFile : string) (inputs : option string)
        (evs : list event) :
  error_free evs = true ->
  exists res,
    fst (JavaRunner.runCode codePath now evs codeFile inputs []) = Returned res /\
    (JavaRunner.success res = true <->
     is_exit (snd (first_settling_event java_settles evs)) = true /\
     stderr_of (fst (first_settling_event java_settles evs)) = "") /\
    (JavaRunner.success res = true ->
     JavaRunner.output res
     = Some (stdout_of (fst (first_settling_event java_settles evs))) /\
     JavaRunner.error res = None) /\
    (JavaRunner.success res = false ->
     JavaRunner.output res = None /\ JavaRunner.error res <> None).
Proof.
  intros Hef.
  destruct (first_settling_event java_settles evs) as [pre e] eqn:H.
  rewrite (java_runCode_decided codePath now codeFile inputs evs pre e Hef H).
  cbn [fst snd]. eexists. split; [reflexivity|].
  unfold java_settlement, truthy.
  destruct e as [d|d|m|c sg|c sg|]; cbn [is_exit java_result JavaRunner.success
                                             JavaRunner.output JavaRunner.error];
    try (split; [split; [discriminate | intros [? _]; discriminate]
                | split; [discriminate | intros _; split; [reflexivity | discriminate]]]).
  destruct (String.eqb_spec (stderr_of pre) "") as [He | He];
    cbn [negb java_result JavaRunner.success JavaRunner.output JavaRunner.error].
  - split; [split; [auto | reflexivity]|].
    split; [intros _; split; reflexivity | discriminate].
  - split; [split; [discriminate | intros [_ ?]; contradiction]|].
    split; [discriminate | intros _; split; [reflexivity | discriminate]].
Qed.

(** X15.  When, in a run without [error] events, the timer is the first
    settling event, the Java runner returns the timeout message alone: the
    stdout and stderr text received so far is not part of the record. *)
Theorem java_timeout_discards_partial_output (codeFile : string)
        (inputs : option string) (evs pre : list event) :
  error_free evs = true ->
  first_settling_event java_settles evs = (pre, TimerEv) ->
  fst (JavaRunner.runCode codePath now evs codeFile inputs [])
  = Returned (JavaRunner.mkResult false now None
                (Some "Error: Timed Out. Your code took too long to execute, over 8 seconds.")).
Proof.
  intros Hef H.
  rewrite (java_runCode_decided codePath now codeFile inputs evs pre TimerEv Hef H).
  reflexivity.
Qed.



End JavaMore.

(** ** The further statements at concrete runs *)

Lemma spawn_counts_witness :
  count (is_spawn_in CompilePhase) (snd (runCode demoEnv worldExecTimeout jobC []))
  = Nat.b2n (has_compile_step demoEnv jobC) /\
  count (is_spawn_in ExecutePhase) (snd (runCode demoEnv worldExecTimeout jobC []))
  = Nat.b2n (execute_spawns demoEnv worldExecTimeout jobC) /\
  count is_spawn (snd (runCode demoEnv worldExecTimeout jobC []))
  = Nat.b2n (has_compile_step demoEnv jobC)
    + Nat.b2n (execute_spawns demoEnv worldExecTimeout jobC) /\
  count is_spawn (snd (runCode demoEnv worldExecTimeout jobC [])) <= 2.
Proof.
  apply (spawn_counts demoEnv worldExecTimeout jobC).
  split; [discriminate | reflexivity].
Defined.

Lemma kills_only_on_timeout_witness :
  count is_kill (snd (runCode demoEnv worldExecTimeout jobC []))
  = Nat.b2n (has_compile_step demoEnv jobC
             && is_timer (snd (compile_decider worldExecTimeout)))
    + Nat.b2n (execute_started demoEnv worldExecTimeout jobC
               && is_timer (snd (exec_decider worldExecTimeout))).
Proof.
  apply (kills_only_on_timeout demoEnv worldExecTimeout jobC).
  split; [discriminate | reflexivity].
Defined.

Lemma stdin_written_and_ended_witness :
  count is_stdin_write (snd (runCode demoEnv worldExecExit3 jobPy []))
  = Nat.b2n (execute_started demoEnv worldExecExit3 jobPy
             && negb (input jobPy =? "")) /\
  count is_stdin_end (snd (runCode demoEnv worldExecExit3 jobPy []))
  = Nat.b2n (execute_started demoEnv worldExecExit3 jobPy
             && ((input jobPy =? "")
                 || negb (stdinWriteThrows (execWorldOf worldExecExit3)))) /\
  (execute_started demoEnv worldExecExit3 jobPy = true -> input jobPy <> "" ->
   In (EffStdinWrite (input jobPy)) (snd (runCode demoEnv worldExecExit3 jobPy []))).
Proof.
  apply (stdin_written_and_ended demoEnv worldExecExit3 jobPy).
  split; [discriminate | reflexivity].
Defined.

Lemma only_first_settling_events_matter_witness :
  runCode demoEnv worldCompileWarns jobC [] = runCode demoEnv worldLateEvents jobC [].
Proof.
  apply (only_first_settling_events_matter demoEnv worldCompileWarns worldLateEvents jobC);
    reflexivity.
Defined.

Lemma compiler_output_is_discarded_witness :
  runCode demoEnv worldCompileWarns jobC [] = runCode demoEnv worldCompileSilent jobC [] /\
  fst (runCode demoEnv worldCompileWarns jobC [])
  = Returned (mkResponse None
                (r_output (exec_resolution (execWorldOf worldCompileWarns)
                             (specOf demoEnv jobC)))
                (r_error (exec_resolution (execWorldOf worldCompileWarns)
                            (specOf demoEnv jobC)))
                (language jobC) (info demoEnv (language jobC))).
Proof.
  apply (compiler_output_is_discarded demoEnv worldCompileWarns worldCompileSilent jobC
           [StderrData "warning: unused variable"] [] None None).
  - split; [discriminate | reflexivity].
  - reflexivity.
  - reflexivity.
  - reflexivity.
  - reflexivity.
Defined.

Lemma signal_notice_is_appended_witness :
  exists r log,
    runCode demoEnv worldSignal jobPy [] = (Returned r, log) /\
    output r = stdout_of [StderrData "x"] /\
    error r = stderr_of [StderrData "x"] ++ nl
              ++ "Process terminated by signal: " ++ "SIGSEGV".
Proof.
  apply (signal_notice_is_appended demoEnv worldSignal jobPy [StderrData "x"]
           None "SIGSEGV").
  - split; [split; [discriminate | reflexivity]|]. left. reflexivity.
  - split; reflexivity.
  - reflexivity.
  - discriminate.
Defined.


Lemma java_timeout_discards_partial_output_witness :
  fst (JavaRunner.runCode (fun p => p) 0%Z javaLoop "Main.java" None [])
  = Returned (JavaRunner.mkResult false 0 None
                (Some "Error: Timed Out. Your code took too long to execute, over 8 seconds.")).
Proof.
  apply (java_timeout_discards_partial_output (fun p => p) 0%Z "Main.java" None
           javaLoop [StdoutData "tick"]);
    reflexivity.
Defined.

Lemma java_success_iff_clean_exit_witness :
  exists res,
    fst (JavaRunner.runCode (fun p => p) 0%Z javaExit1 "Main.java" None [])
    = Returned res /\
    (JavaRunner.success res = true <->
     is_exit (snd (first_settling_event java_settles javaExit1)) = true /\
     stderr_of (fst (first_settling_event java_settles javaExit1)) = "") /\
    (JavaRunner.success res = true ->
     JavaRunner.output res
     = Some (stdout_of (fst (first_settling_event java_settles javaExit1))) /\
     JavaRunner.error res = None) /\
    (JavaRunner.success res = false ->
     JavaRunner.output res = None /\ JavaRunner.error res <> None).
Proof.
  apply (java_success_iff_clean_exit (fun p => p) 0%Z "Main.java" None javaExit1).
  reflexivity.
Defined.


(** ** The host process *)

Lemma exec_deliver_unresolved_log (w : execWorld) (e : event) (st : Execute.state) :
  Execute.isResolved (Execute.deliver w st e) = false ->
  Execute.isResolved st = false /\
  Execute.log (Execute.deliver w st e) = Execute.log st.
Proof.
  destruct st as [o er r t p l]. destruct r; simpl.
  - intros H. destruct (exec_deliver_resolved w e
                          (Execute.mkState o er true t p l) eq_refl) as (H1 & _).
    rewrite H1 in H. discriminate.
  - destruct e as [d|d|m|c sg|c sg|]; simpl.
    + auto.
    + auto.
    + discriminate.
    + auto.
    + unfold Execute.onClose; simpl.
      destruct sg as [s|]; [destruct (truthy s)|]; simpl; discriminate.
    + destruct t; simpl; auto.
      unfold Execute.onTimer, Execute.try_kill; simpl.
      destruct (killThrows w); simpl; discriminate.
Qed.

(** While the promise is pending the callbacks have no effect on the
    child. *)
Lemma exec_fold_unresolved_log (w : execWorld) (evs : list event) :
  forall st,
    Execute.isResolved (fold_left (Execute.deliver w) evs st) = false ->
    Execute.log (fold_left (Execute.deliver w) evs st) = Execute.log st.
Proof.
  induction evs as [|e evs IH]; intros st H; simpl in *; [reflexivity|].
  rewrite (IH _ H).
  assert (Hd : Execute.isResolved (Execute.deliver w st e) = false).
  { destruct (Execute.isResolved (Execute.deliver w st e)) eqn:Hr; [|reflexivity].
    destruct (exec_fold_resolved w evs _ Hr) as (H1 & _).
    rewrite H1 in H. discriminate. }
  apply (exec_deliver_unresolved_log w e st Hd).
Qed.

(** A host that stays alive runs the execute promise as [Execute.run]. *)
Lemma hostExecuteRun_alive (hw : hostWorld) (spec : commandSpec) (input : string) :
  snd (hostExecuteRun hw spec input) = true ->
  hostExecuteRun hw spec input
  = (Execute.run (execWorldOf (worldOf hw)) spec input, true).
Proof.
  unfold hostExecuteRun.
  destruct (Execute.executor (execWorldOf (worldOf hw)) spec input) as [st reg].
  destruct (stdinErrorAfter hw) as [n|]; [|reflexivity].
  destruct (reg && stdin_written (execWorldOf (worldOf hw)) input); [|reflexivity].
  destruct (Execute.isResolved _); [reflexivity | discriminate].
Qed.

Lemma hostExecuteRun_no_stdin_error (hw : hostWorld) (spec : commandSpec)
      (input : string) :
  stdinErrorAfter hw = None ->
  hostExecuteRun hw spec input
  = (Execute.run (execWorldOf (worldOf hw)) spec input, true).
Proof.
  intros H. unfold hostExecuteRun. rewrite H.
  destruct (Execute.executor (execWorldOf (worldOf hw)) spec input); reflexivity.
Qed.

(** A host that has ended leaves the log the executor wrote: the child is
    spawned, its timer armed and its stdin written, and nothing else. *)
Lemma hostExecuteRun_died (hw : hostWorld) (spec : commandSpec) (input : string)
      (st : Execute.state) :
  hostExecuteRun hw spec input = (st, false) ->
  Execute.log st = exec_base (execWorldOf (worldOf hw)) spec input /\
  exec_started (execWorldOf (worldOf hw)) spec /\
  stdin_written (execWorldOf (worldOf hw)) input = true /\
  stdinErrorAfter hw <> None.
Proof.
  unfold hostExecuteRun, exec_base.
  destruct (Execute.executor (execWorldOf (worldOf hw)) spec input) as [st0 reg] eqn:Hex.
  destruct (stdinErrorAfter hw) as [n|]; [|discriminate].
  destruct reg; cbn [andb]; [|discriminate].
  destruct (stdin_written (execWorldOf (worldOf hw)) input); [|discriminate].
  destruct (Execute.isResolved _) eqn:Hr; [discriminate|].
  intros [= <-]. cbn [fst].
  split; [apply (exec_fold_unresolved_log _ _ _ Hr)|].
  split; [|split; [reflexivity | discriminate]].
  unfold Execute.executor in Hex. unfold exec_started.
  destruct (truthy_opt (executeCodeCommand spec)); [|discriminate].
  destruct (spawnThrows (execWorldOf (worldOf hw))); [discriminate|].
  split; reflexivity.
Qed.

Section HostFacts.

Context {Metadata : Type} (env : collaborators Metadata).

Lemma host_empty_code (hw : hostWorld) (j : job) (l : list effect) :
  code j = "" ->
  runCodeHost env hw j l = (Thrown (mkThrown 400 "No Code found to execute."), l).
Proof. intros H. unfold runCodeHost. rewrite H. reflexivity. Qed.

Lemma host_unsupported (hw : hostWorld) (j : job) (l : list effect) :
  code j <> "" ->
  includes (language j) (supportedLanguages env) = false ->
  runCodeHost env hw j l = (Thrown (mkThrown 400 (unsupported_message env)), l).
Proof.
  intros Hc Hl. unfold runCodeHost.
  destruct (String.eqb_spec (code j) ""); [contradiction|].
  rewrite Hl. reflexivity.
Qed.

(** The [spawn] of the compiler throws: the Error is caught at line 88,
    the artifact removed, and the Error's own properties returned with
    [info].  No timer is armed and nothing of the execute phase runs. *)
Lemma host_compile_spawn_throws (hw : hostWorld) (j : job) (err : jsObject) :
  valid env j ->
  has_compile_step env j = true ->
  compileSpawnThrows hw = Some err ->
  runCodeHost env hw j []
  = (Returned (SpreadError err (info env (language j))),
     (EffCreateCodeFile (language j) (code j)
      :: EffSpawn CompilePhase (compile_command (specOf env j))
           (args_or_empty (compilationArgs (specOf env j))) None
      :: cleanup env j)%list).
Proof.
  intros [Hc Hl] Hs Ht. unfold runCodeHost.
  destruct (String.eqb_spec (code j) ""); [contradiction|].
  rewrite Hl. simpl.
  unfold bind, call_createCodeFile, bind, tell, ret, hostCompilePhase. simpl.
  unfold has_compile_step, specOf in Hs. rewrite Hs, Ht.
  unfold bind, tell, ret. simpl. reflexivity.
Qed.

Lemma host_compile_rejected (hw : hostWorld) (j : job) (r : compileResult) :
  valid env j ->
  has_compile_step env j = true ->
  compileSpawnThrows hw = None ->
  settled (Compile.outcome (compileRun env (worldOf hw) j))
  = Some (Compile.Rejected r) ->
  runCodeHost env hw j []
  = (Returned (Built (mkResponse (Some (cr_status r)) (cr_output r) (cr_error r)
                                 (cr_language r) (info env (language j)))),
     (EffCreateCodeFile (language j) (code j)
      :: Compile.log (compileRun env (worldOf hw) j) ++ cleanup env j)%list).
Proof.
  intros [Hc Hl] Hs Ht Hr. unfold runCodeHost.
  destruct (String.eqb_spec (code j) ""); [contradiction|].
  rewrite Hl. simpl.
  unfold bind, call_createCodeFile, bind, tell, ret, hostCompilePhase. simpl.
  unfold has_compile_step, specOf in Hs. rewrite Hs, Ht.
  unfold compilePhase. rewrite Hs.
  unfold bind, tell, await, ret. simpl.
  unfold compileRun, specOf, compile_command in Hr. rewrite Hr. simpl.
  unfold cleanup, jobIDOf, specOf, compileRun, specOf, compile_command.
  rewrite <- app_assoc. reflexivity.
Qed.

(** In the execute phase, with a host that stays alive. *)
Lemma host_executed (hw : hostWorld) (j : job) (r : execResult) :
  host_reaches_execute env hw j ->
  snd (hostExecuteOf env hw j) = true ->
  settled (Execute.outcome (executeRun env (worldOf hw) j)) = Some r ->
  runCodeHost env hw j []
  = (Returned (Built (mkResponse None (r_output r) (r_error r) (language j)
                                 (info env (language j)))),
     (EffCreateCodeFile (language j) (code j)
      :: compile_effects env (worldOf hw) j
      ++ Execute.log (executeRun env (worldOf hw) j) ++ cleanup env j)%list).
Proof.
  intros [[Hc Hl] Hcomp] Ha Hr. unfold runCodeHost.
  destruct (String.eqb_spec (code j) ""); [contradiction|].
  rewrite Hl. simpl.
  unfold bind, call_createCodeFile, bind, tell, ret, hostCompilePhase. simpl.
  unfold compile_effects.
  unfold hostExecuteOf in Ha. apply hostExecuteRun_alive in Ha.
  unfold specOf in Ha.
  destruct (has_compile_step env j) eqn:Hs.
  - destruct Hcomp as [Hcomp | [Ht Hcomp]]; [discriminate|].
    unfold has_compile_step, specOf in Hs. rewrite Hs, Ht.
    unfold compilePhase. rewrite Hs.
    unfold bind, tell, await, ret. simpl.
    unfold compileRun, specOf, compile_command in Hcomp. rewrite Hcomp. simpl.
    unfold hostExecutePhase. rewrite Ha.
    unfold bind, tell, await. simpl.
    unfold executeRun, specOf in Hr. rewrite Hr. simpl.
    unfold cleanup, jobIDOf, specOf, compileRun, executeRun, specOf, compile_command.
    rewrite <- !app_assoc. reflexivity.
  - unfold has_compile_step, specOf in Hs. rewrite Hs. simpl.
    unfold hostExecutePhase. rewrite Ha.
    unfold bind, tell, await. simpl.
    unfold executeRun, specOf in Hr. rewrite Hr. simpl.
    unfold cleanup, jobIDOf, specOf, executeRun, specOf.
    rewrite <- !app_assoc. reflexivity.
Qed.

(** In the execute phase, with a host that the [error] event of stdin
    ends: [runCode] never gets past line 99, and the artifact stays. *)
Lemma host_executed_died (hw : hostWorld) (j : job) (st : Execute.state) :
  host_reaches_execute env hw j ->
  hostExecuteOf env hw j = (st, false) ->
  runCodeHost env hw j []
  = (Died,
     (EffCreateCodeFile (language j) (code j)
      :: compile_effects env (worldOf hw) j ++ Execute.log st)%list).
Proof.
  intros [[Hc Hl] Hcomp] Ha. unfold runCodeHost.
  destruct (String.eqb_spec (code j) ""); [contradiction|].
  rewrite Hl. simpl.
  unfold bind, call_createCodeFile, bind, tell, ret, hostCompilePhase. simpl.
  unfold compile_effects.
  unfold hostExecuteOf, specOf in Ha.
  destruct (has_compile_step env j) eqn:Hs.
  - destruct Hcomp as [Hcomp | [Ht Hcomp]]; [discriminate|].
    unfold has_compile_step, specOf in Hs. rewrite Hs, Ht.
    unfold compilePhase. rewrite Hs.
    unfold bind, tell, await, ret. simpl.
    unfold compileRun, specOf, compile_command in Hcomp. rewrite Hcomp. simpl.
    unfold hostExecutePhase. rewrite Ha.
    unfold bind, tell, die. simpl.
    unfold compileRun, specOf, compile_command.
    rewrite <- ?app_assoc. reflexivity.
  - unfold has_compile_step, specOf in Hs. rewrite Hs. simpl.
    unfold hostExecutePhase. rewrite Ha.
    unfold bind, tell, die. simpl. reflexivity.
Qed.

End HostFacts.

Section HostCases.

Context {Metadata : Type} (env : collaborators Metadata).

(** A failed compile step in the host, spelled out: the compiler is
    spawned and its first settling event makes the compilation fail. *)
Lemma host_compile_failure (hw : hostWorld) (j : job) (pre : list event) (e : event) :
  valid env j ->
  has_compile_step env j = true ->
  compileSpawnThrows hw = None ->
  compile_decider (worldOf hw) = (pre, e) ->
  compile_fails e = true ->
  runCodeHost env hw j []
  = (Returned (Built (mkResponse (Some 200%Z) "" (compile_error_text pre e)
                                 (language j) (info env (language j)))),
     (EffCreateCodeFile (language j) (code j)
      :: [EffSpawn CompilePhase (compile_command (specOf env j))
            (args_or_empty (compilationArgs (specOf env j))) None;
          EffSetTimeout CompilePhase 5000;
          closing_of CompilePhase e]
      ++ cleanup env j)%list).
Proof.
  intros Hv Hs Ht Hfs Hf.
  destruct (compile_run_decided (language j) (compile_command (specOf env j))
              (compilationArgs (specOf env j)) (compileEvents (worldOf hw)) pre e Hfs)
    as (Ho & Hl).
  fold (compileRun env (worldOf hw) j) in Ho, Hl.
  unfold compile_settlement in Ho. rewrite Hf in Ho.
  rewrite (host_compile_rejected env hw j _ Hv Hs Ht) by (rewrite Ho; reflexivity).
  rewrite Hl. reflexivity.
Qed.

(** The execute phase in a host that stays alive, spelled out. *)
Lemma host_execute_resolution (hw : hostWorld) (j : job) :
  host_reaches_execute env hw j ->
  snd (hostExecuteOf env hw j) = true ->
  runCodeHost env hw j []
  = (Returned (Built (mkResponse None
                        (r_output (exec_resolution (execWorldOf (worldOf hw))
                                     (specOf env j)))
                        (r_error (exec_resolution (execWorldOf (worldOf hw))
                                    (specOf env j)))
                        (language j) (info env (language j)))),
     (EffCreateCodeFile (language j) (code j)
      :: compile_effects env (worldOf hw) j
      ++ Execute.log (executeRun env (worldOf hw) j) ++ cleanup env j)%list).
Proof.
  intros Hre Ha. apply host_executed; try assumption.
  unfold executeRun. now rewrite exec_run_resolution.
Qed.

Lemma host_reaches_core (hw : hostWorld) (j : job) :
  host_reaches_execute env hw j -> reaches_execute env (worldOf hw) j.
Proof.
  intros [Hv [H | [_ H]]]; (split; [assumption|]); [now left | now right].
Qed.

(** The three ways a run of a valid job goes in the host: the [spawn] of
    the compiler throws; or the run is the one of [runCode], which
    returns; or the job gets to the execute phase and the [error] event of
    stdin ends the host. *)
Lemma runCodeHost_cases (hw : hostWorld) (j : job) :
  valid env j ->
  (exists err,
      has_compile_step env j = true /\
      compileSpawnThrows hw = Some err /\
      runCodeHost env hw j []
      = (Returned (SpreadError err (info env (language j))),
         (EffCreateCodeFile (language j) (code j)
          :: EffSpawn CompilePhase (compile_command (specOf env j))
               (args_or_empty (compilationArgs (specOf env j))) None
          :: cleanup env j)%list)) \/
  (exists r,
      runCode env (worldOf hw) j [] = (Returned r, effects_of env (worldOf hw) j) /\
      runCodeHost env hw j [] = (Returned (Built r), effects_of env (worldOf hw) j)) \/
  (exists st,
      host_reaches_execute env hw j /\
      hostExecuteOf env hw j = (st, false) /\
      runCodeHost env hw j []
      = (Died,
         (EffCreateCodeFile (language j) (code j)
          :: compile_effects env (worldOf hw) j ++ Execute.log st)%list)).
Proof.
  intros Hv.
  assert (Hcore : forall r l,
             runCodeHost env hw j [] = (Returned (Built r), l) ->
             runCode env (worldOf hw) j [] = (Returned r, l) ->
             exists r0,
               runCode env (worldOf hw) j []
               = (Returned r0, effects_of env (worldOf hw) j) /\
               runCodeHost env hw j []
               = (Returned (Built r0), effects_of env (worldOf hw) j)).
  { intros r l Hh Hc. exists r.
    pose proof (runCode_explained env (worldOf hw) j) as Hex.
    rewrite Hc in Hex. injection Hex as _ Hl. subst l. auto. }
  assert (Hexec : host_reaches_execute env hw j ->
            (exists r,
                runCode env (worldOf hw) j []
                = (Returned r, effects_of env (worldOf hw) j) /\
                runCodeHost env hw j []
                = (Returned (Built r), effects_of env (worldOf hw) j)) \/
            (exists st,
                host_reaches_execute env hw j /\
                hostExecuteOf env hw j = (st, false) /\
                runCodeHost env hw j []
                = (Died,
                   (EffCreateCodeFile (language j) (code j)
                    :: compile_effects env (worldOf hw) j ++ Execute.log st)%list))).
  { intros Hre.
    destruct (hostExecuteOf env hw j) as [st alive] eqn:Hho.
    destruct alive.
    - left. eapply Hcore.
      + apply host_execute_resolution; [assumption | now rewrite Hho].
      + apply runCode_execute_resolution, host_reaches_core, Hre.
    - right. exists st. split; [assumption|]. split; [reflexivity|].
      now apply host_executed_died. }
  destruct (has_compile_step env j) eqn:Hs.
  - destruct (compileSpawnThrows hw) as [err|] eqn:Ht.
    + left. exists err. split; [reflexivity|]. split; [reflexivity|].
      now apply host_compile_spawn_throws.
    + right.
      destruct (compile_decider (worldOf hw)) as [pre e] eqn:Hfs.
      pose proof Hfs as Hfs'. unfold compile_decider in Hfs'.
      destruct (compile_fails e) eqn:Hf.
      * left. eapply Hcore.
        -- apply (host_compile_failure hw j pre e); assumption.
        -- apply (runCode_compile_failure env (worldOf hw) j pre e); assumption.
      * apply Hexec. split; [assumption|]. right. split; [exact Ht|].
        apply (compile_success_reaches_execute env (worldOf hw) j pre e Hv Hfs') in Hf.
        destruct Hf as [_ [Hf | Hf]]; [congruence | assumption].
  - right. apply Hexec. split; [assumption | now left].
Qed.

(** [runCode] is [runCodeHost] in the host whose compiler gets spawned
    and where no write to stdin fails. *)
Lemma runCodeHost_quiet (w : world) (j : job) :
  runCodeHost env (quietHost w) j []
  = (built (fst (runCode env w j [])), snd (runCode env w j [])).
Proof.
  destruct (String.eqb_spec (code j) "") as [Hc | Hc].
  { now rewrite (host_empty_code env _ j [] Hc), (runCode_empty_code env w j [] Hc). }
  destruct (includes (language j) (supportedLanguages env)) eqn:Hl.
  2:{ now rewrite (host_unsupported env _ j [] Hc Hl),
        (runCode_unsupported env w j [] Hc Hl). }
  destruct (runCodeHost_cases (quietHost w) j (conj Hc Hl))
    as [(err & _ & Ht & _) | [(r & Hcore & Hhost) | (st & _ & Hd & _)]].
  - discriminate.
  - cbn [worldOf quietHost] in Hcore, Hhost. now rewrite Hhost, Hcore.
  - destruct (hostExecuteRun_died _ _ _ _ Hd) as (_ & _ & _ & Hn).
    now contradiction Hn.
Qed.

End HostCases.

Section HostClaims.

Context {Metadata : Type} (env : collaborators Metadata).

(** The artifact of a valid job is removed exactly once in every run that
    returns, the one in which the [spawn] of the compiler throws included.
    The only run that does not return is the one the [error] event of
    stdin ends, and there the artifact is never removed. *)
Lemma host_artifact_removed_unless_host_ends (hw : hostWorld) (j : job) :
  valid env j ->
  ((exists r, fst (runCodeHost env hw j []) = Returned r) /\
   count is_remove (snd (runCodeHost env hw j [])) = 1) \/
  (fst (runCodeHost env hw j []) = Died /\
   count is_remove (snd (runCodeHost env hw j [])) = 0 /\
   stdinErrorAfter hw <> None /\
   stdin_written (execWorldOf (worldOf hw)) (input j) = true).
Proof.
  intros Hv.
  destruct (runCodeHost_cases env hw j Hv)
    as [(err & _ & _ & ->) | [(r & Hc & ->) | (st & Hre & Hd & ->)]].
  - left. split; [now eexists|]. cbn [snd]. unfold cleanup.
    repeat rewrite count_cons. reflexivity.
  - left. split; [now eexists|]. cbn [snd].
    destruct (artifact_removed_exactly_once env (worldOf hw) j Hv)
      as (_ & _ & _ & _ & H & _).
    now rewrite Hc in H.
  - right. cbn [fst snd]. split; [reflexivity|].
    destruct (hostExecuteRun_died hw _ _ _ Hd) as (Hl & Hst & Hw & Hn).
    split; [|split; assumption].
    rewrite count_cons, count_app. cbn [is_remove Nat.b2n].
    rewrite (count_process_remove _ (compile_effects_process env (worldOf hw) j)).
    rewrite Hl, (exec_base_started _ _ _ Hst).
    repeat rewrite count_cons. cbn [is_remove Nat.b2n].
    rewrite count_stdin_effects by (reflexivity || (intros; reflexivity)).
    reflexivity.
Qed.

(** C3, as the code has it.  [runCode] throws exactly when the code is
    empty or the language is not supported, and what it throws has status
    400.  A failed compilation is caught at line 88 and returned, not
    thrown: with status 200 and the error text of the cause when the
    compiler's exit, its [error] event or the compile timer rejected the
    promise, and as the caught Error's own properties plus [info] when the
    [spawn] of the compiler threw.  A job that gets to the execute phase,
    in a host that the [error] event of stdin does not end, returns what
    the execute promise was resolved with (missing command, spawn failure,
    timeout, signal, exit with any code), without a status. *)
Theorem host_throws_only_request_errors (hw : hostWorld) (j : job) :
  ((exists t, fst (runCodeHost env hw j []) = Thrown t) <->
   (code j = "" \/ includes (language j) (supportedLanguages env) = false)) /\
  (forall t, fst (runCodeHost env hw j []) = Thrown t -> t_status t = 400%Z) /\
  (forall pre e,
      valid env j ->
      has_compile_step env j = true ->
      compileSpawnThrows hw = None ->
      compile_decider (worldOf hw) = (pre, e) ->
      compile_fails e = true ->
      exists r,
        fst (runCodeHost env hw j []) = Returned (Built r) /\
        status r = Some 200%Z /\
        error r = compile_error_text pre e) /\
  (forall err,
      valid env j ->
      has_compile_step env j = true ->
      compileSpawnThrows hw = Some err ->
      fst (runCodeHost env hw j [])
      = Returned (SpreadError err (info env (language j)))) /\
  (host_reaches_execute env hw j ->
   snd (hostExecuteOf env hw j) = true ->
   exists r,
     fst (runCodeHost env hw j []) = Returned (Built r) /\
     status r = None /\
     output r = r_output (exec_resolution (execWorldOf (worldOf hw)) (specOf env j)) /\
     error r = r_error (exec_resolution (execWorldOf (worldOf hw)) (specOf env j))).
Proof.
  assert (Hnot : valid env j -> forall t, fst (runCodeHost env hw j []) <> Thrown t).
  { intros Hv t.
    destruct (runCodeHost_cases env hw j Hv)
      as [(err & _ & _ & ->) | [(r & _ & ->) | (st & _ & _ & ->)]]; discriminate. }
  split; [|split; [|split; [|split]]].
  - destruct (String.eqb_spec (code j) "") as [Hc | Hc].
    + rewrite (host_empty_code env hw j [] Hc). split; [now left | now eexists].
    + destruct (includes (language j) (supportedLanguages env)) eqn:Hl.
      * split.
        -- intros [t Ht]. exfalso. apply (Hnot (conj Hc Hl) t Ht).
        -- intros [? | [=]]. contradiction.
      * rewrite (host_unsupported env hw j [] Hc Hl). split; [now right | now eexists].
  - intros t Ht.
    destruct (String.eqb_spec (code j) "") as [Hc | Hc].
    + rewrite (host_empty_code env hw j [] Hc) in Ht. injection Ht as <-. reflexivity.
    + destruct (includes (language j) (supportedLanguages env)) eqn:Hl.
      * exfalso. apply (Hnot (conj Hc Hl) t Ht).
      * rewrite (host_unsupported env hw j [] Hc Hl) in Ht.
        injection Ht as <-. reflexivity.
  - intros pre e Hv Hs Ht Hfs Hf.
    rewrite (host_compile_failure env hw j pre e Hv Hs Ht Hfs Hf).
    eexists. split; [reflexivity|]. split; reflexivity.
  - intros err Hv Hs Ht.
    now rewrite (host_compile_spawn_throws env hw j err Hv Hs Ht).
  - intros Hre Ha.
    rewrite (host_execute_resolution env hw j Hre Ha).
    eexists. split; [reflexivity|]. repeat split.
Qed.

(** C4, as the code has it.  When the compile step of a valid job fails,
    because the [spawn] of the compiler throws or because the first
    settling event of the compiler is a non-zero or signal-ended exit, an
    [error] event or the timer, [runCode] returns without a single
    [spawn] of the execute phase and removes the artifact once.  The
    error text depends on the cause: for an exit it is the stderr text
    captured before the exit, else the stdout text captured before it,
    else [Compilation failed]; for an [error] event it is [Compilation
    error: ] followed by the message; for the timeout it is [Compilation
    timed out], whatever was captured.  When [spawn] threw there is no
    error text of the pipeline's: the object returned is the caught
    Error's own properties plus [info]. *)
Theorem host_compile_failure_skips_execute (hw : hostWorld) (j : job)
        (pre : list event) (e : event) :
  valid env j ->
  has_compile_step env j = true ->
  compile_decider (worldOf hw) = (pre, e) ->
  compileSpawnThrows hw <> None \/ compile_fails e = true ->
  exists r log,
    runCodeHost env hw j [] = (Returned r, log) /\
    count (is_spawn_in ExecutePhase) log = 0 /\
    count is_remove log = 1 /\
    match compileSpawnThrows hw with
    | Some err => r = SpreadError err (info env (language j))
    | None =>
        exists b,
          r = Built b /\
          status b = Some 200%Z /\
          output b = "" /\
          error b = match e with
                    | ExitEv _ _ =>
                        js_or (stderr_of pre)
                              (js_or (stdout_of pre) "Compilation failed")
                    | ErrorEv message => "Compilation error: " ++ message
                    | _ => "Compilation timed out"
                    end
    end.
Proof.
  intros Hv Hs Hfs Hfail.
  destruct (compileSpawnThrows hw) as [err|] eqn:Ht.
  - eexists _, _. split; [apply (host_compile_spawn_throws env hw j err Hv Hs Ht)|].
    unfold cleanup. repeat rewrite count_cons. repeat split.
  - destruct Hfail as [Hfail | Hf]; [contradiction|].
    eexists _, _. split; [apply (host_compile_failure env hw j pre e Hv Hs Ht Hfs Hf)|].
    unfold cleanup.
    destruct e; simpl in Hf; try discriminate;
      (split; [reflexivity | split; [reflexivity|]]);
      eexists; (split; [reflexivity|]); repeat split.
Qed.

(** C10, as the code has it.  When the compiler of a valid job [j] is
    spawned and its first settling event makes the compilation fail
    (non-zero or signal-ended exit, [error] event, or timeout), [runCode]
    returns, not throws, an object whose [status] is 200, whose [output]
    is empty and whose [error] is not empty.  A job [j'] that fails the
    validation makes [runCode] throw an object with status 400.  A job
    [j''] that gets to the execute phase, in a host the [error] event of
    stdin does not end, returns an object without a [status] field: a
    completed run and a failed compilation differ in [status]. *)
Theorem host_compile_failure_status (hw hw' hw'' : hostWorld) (j j' j'' : job)
        (pre : list event) (e : event) :
  valid env j ->
  has_compile_step env j = true ->
  compileSpawnThrows hw = None ->
  compile_decider (worldOf hw) = (pre, e) ->
  compile_fails e = true ->
  code j' = "" \/ includes (language j') (supportedLanguages env) = false ->
  host_reaches_execute env hw'' j'' ->
  snd (hostExecuteOf env hw'' j'') = true ->
  (exists r log,
      runCodeHost env hw j [] = (Returned (Built r), log) /\
      status r = Some 200%Z /\ output r = "" /\ error r <> "") /\
  (exists t,
      runCodeHost env hw' j' [] = (Thrown t, []) /\ t_status t = 400%Z) /\
  (exists r log,
      runCodeHost env hw'' j'' [] = (Returned (Built r), log) /\
      status r = None /\
      status r <> Some 200%Z).
Proof.
  intros Hv Hs Ht Hfs Hf Hinv Hre Ha. split; [|split].
  - eexists _, _. split; [apply (host_compile_failure env hw j pre e Hv Hs Ht Hfs Hf)|].
    cbn [status output error]. repeat split.
    destruct e; simpl in Hf; try discriminate; simpl; try discriminate.
    apply js_or_nonempty, js_or_nonempty. discriminate.
  - destruct (String.eqb_spec (code j') "") as [Hc | Hc].
    + eexists. rewrite (host_empty_code env hw' j' _ Hc). split; reflexivity.
    + destruct Hinv as [H | H]; [contradiction|].
      eexists. rewrite (host_unsupported env hw' j' _ Hc H). split; reflexivity.
  - eexists _, _. split; [apply (host_execute_resolution env hw'' j'' Hre Ha)|].
    cbn [status]. split; [reflexivity | discriminate].
Qed.

(** X11.  Every object [runCode] returns for a valid job carries the
    metadata [info] gives for the job's language, and [info] is called
    exactly once, as the last effect of the run.  An object the pipeline
    built carries the job's language too; the object returned when the
    [spawn] of the compiler threw is the caught Error's own properties
    plus [info], and has no language of the pipeline's. *)
Theorem host_response_carries_info (hw : hostWorld) (j : job)
        (r : hostResponse Metadata) :
  valid env j ->
  fst (runCodeHost env hw j []) = Returned r ->
  (exists before,
      snd (runCodeHost env hw j []) = (before ++ [EffInfo (language j)])%list /\
      count is_info before = 0) /\
  match r with
  | Built b => resp_language b = language j /\ resp_info b = info env (language j)
  | SpreadError err i =>
      i = info env (language j) /\ compileSpawnThrows hw = Some err
  end.
Proof.
  intros Hv Hr.
  destruct (runCodeHost_cases env hw j Hv)
    as [(err & _ & Ht & Hrun) | [(b & Hc & Hrun) | (st & _ & _ & Hrun)]];
    rewrite Hrun in *; cbn [fst snd] in *.
  - injection Hr as <-. split; [|split; [reflexivity | exact Ht]].
    eexists [_; _; _]. split; [reflexivity|]. reflexivity.
  - injection Hr as <-.
    destruct (response_carries_language_and_info env (worldOf hw) j Hv)
      as (b' & before & Hb & Hl & Hi & Hcnt).
    rewrite Hc in Hb. injection Hb as <- Hlog.
    split; [|split; assumption].
    exists before. split; assumption.
  - discriminate.
Qed.

End HostClaims.

Section HostRunnerClaims.

Context {Metadata : Type} (env : collaborators Metadata).
Variable codePath : string -> string.
Variable now : Z.


End HostRunnerClaims.

(** C1 on a program that does not read its input.  The job is a C program
    with the input [42]; the compiler exits with code 0, the program is
    spawned and the input is written to its stdin.  The write fails after
    it has returned, and the [error] event of stdin, for which lines
    150-164 register no listener, ends the host before any event of the
    child is delivered.  The effects of the run stop at the write:
    [removeCodeFile] is never called.  In a host where the write does not
    fail the same job returns and removes its artifact once. *)
Theorem stdin_error_leaks_artifact :
  runCodeHost demoEnv hostStdinFails jobCUnreadInput []
  = (Died,
     [EffCreateCodeFile "c" "int main(){}";
      EffSpawn CompilePhase "gcc" ["job1.c"; "-o"; "job1.out"] None;
      EffSetTimeout CompilePhase 5000;
      EffClearTimeout CompilePhase;
      EffSpawn ExecutePhase "job1.out" [] (Some 10000%Z);
      EffSetTimeout ExecutePhase 10000;
      EffStdinWrite "42";
      EffStdinEnd]) /\
  count is_create (snd (runCodeHost demoEnv hostStdinFails jobCUnreadInput [])) = 1 /\
  count is_remove (snd (runCodeHost demoEnv hostStdinFails jobCUnreadInput [])) = 0 /\
  count is_remove
    (snd (runCodeHost demoEnv (quietHost (worldOf hostStdinFails)) jobCUnreadInput []))
  = 1.
Proof. repeat split. Qed.


(** C10 fails on the status of a completed run: the response of a failed
    compilation has status 200, the response of a C program that compiles,
    prints [ok] and exits with code 0 has no status, and the two differ. *)
Lemma compile_failure_differs_from_success_in_status :
  exists failed succeeded,
    fst (runCodeHost demoEnv (quietHost worldCompileExit1) jobC [])
    = Returned (Built failed) /\
    fst (runCodeHost demoEnv (quietHost worldCompileSilent) jobC [])
    = Returned (Built succeeded) /\
    output succeeded = "ok" /\ error succeeded = "" /\
    status failed = Some 200%Z /\
    status succeeded = None /\
    status failed <> status succeeded.
Proof.
  eexists _, _. split; [reflexivity|]. split; [reflexivity|].
  repeat split. discriminate.
Qed.

(** ** The statements about the host at concrete runs *)

Lemma host_throws_only_request_errors_witness :
  (exists r,
      fst (runCodeHost demoEnv (quietHost worldCompileExit1) jobC [])
      = Returned (Built r) /\
      status r = Some 200%Z /\
      error r = compile_error_text [StderrData "boom"] (ExitEv (Some 1%Z) None)) /\
  fst (runCodeHost demoEnv hostCompileSpawnThrows jobC [])
  = Returned (SpreadError [("code", "ERR_INVALID_ARG_TYPE")]
                          (info demoEnv (language jobC))).
Proof.
  split.
  - destruct (host_throws_only_request_errors demoEnv
                (quietHost worldCompileExit1) jobC) as (_ & _ & H & _).
    apply (H [StderrData "boom"] (ExitEv (Some 1%Z) None)).
    + split; [discriminate | reflexivity].
    + reflexivity.
    + reflexivity.
    + reflexivity.
    + reflexivity.
  - destruct (host_throws_only_request_errors demoEnv
                hostCompileSpawnThrows jobC) as (_ & _ & _ & H & _).
    apply (H [("code", "ERR_INVALID_ARG_TYPE")]).
    + split; [discriminate | reflexivity].
    + reflexivity.
    + reflexivity.
Defined.

Lemma host_compile_failure_skips_execute_witness_spawn_throws :
  exists r log,
    runCodeHost demoEnv hostCompileSpawnThrows jobC [] = (Returned r, log) /\
    count (is_spawn_in ExecutePhase) log = 0 /\
    count is_remove log = 1 /\
    match compileSpawnThrows hostCompileSpawnThrows with
    | Some err => r = SpreadError err (info demoEnv (language jobC))
    | None =>
        exists b,
          r = Built b /\
          status b = Some 200%Z /\
          output b = "" /\
          error b = "Compilation timed out"
    end.
Proof.
  apply (host_compile_failure_skips_execute demoEnv hostCompileSpawnThrows jobC
           [] TimerEv).
  - split; [discriminate | reflexivity].
  - reflexivity.
  - reflexivity.
  - left. discriminate.
Defined.

Lemma host_compile_failure_skips_execute_witness :
  exists r log,
    runCodeHost demoEnv (quietHost worldCompileExit1) jobC [] = (Returned r, log) /\
    count (is_spawn_in ExecutePhase) log = 0 /\
    count is_remove log = 1 /\
    match compileSpawnThrows (quietHost worldCompileExit1) with
    | Some err => r = SpreadError err (info demoEnv (language jobC))
    | None =>
        exists b,
          r = Built b /\
          status b = Some 200%Z /\
          output b = "" /\
          error b = js_or (stderr_of [StderrData "boom"])
                          (js_or (stdout_of [StderrData "boom"]) "Compilation failed")
    end.
Proof.
  apply (host_compile_failure_skips_execute demoEnv (quietHost worldCompileExit1) jobC
           [StderrData "boom"] (ExitEv (Some 1%Z) None)).
  - split; [discriminate | reflexivity].
  - reflexivity.
  - reflexivity.
  - right. reflexivity.
Defined.


Lemma host_compile_failure_status_witness :
  (exists r log,
      runCodeHost demoEnv (quietHost worldCompileExit1) jobC []
      = (Returned (Built r), log) /\
      status r = Some 200%Z /\ output r = "" /\ error r <> "") /\
  (exists t,
      runCodeHost demoEnv (quietHost worldExecExit3) jobRuby [] = (Thrown t, []) /\
      t_status t = 400%Z) /\
  (exists r log,
      runCodeHost demoEnv (quietHost worldCompileSilent) jobC []
      = (Returned (Built r), log) /\
      status r = None /\
      status r <> Some 200%Z).
Proof.
  apply (host_compile_failure_status demoEnv
           (quietHost worldCompileExit1) (quietHost worldExecExit3)
           (quietHost worldCompileSilent) jobC jobRuby jobC
           [StderrData "boom"] (ExitEv (Some 1%Z) None)).
  - split; [discriminate | reflexivity].
  - reflexivity.
  - reflexivity.
  - reflexivity.
  - reflexivity.
  - right. reflexivity.
  - split; [split; [discriminate | reflexivity]|]. right. split; reflexivity.
  - reflexivity.
Defined.

Lemma host_response_carries_info_witness :
  (exists before,
      snd (runCodeHost demoEnv hostCompileSpawnThrows jobC [])
      = (before ++ [EffInfo (language jobC)])%list /\
      count is_info before = 0) /\
  info demoEnv (language jobC) = info demoEnv (language jobC) /\
  compileSpawnThrows hostCompileSpawnThrows = Some [("code", "ERR_INVALID_ARG_TYPE")].
Proof.
  apply (host_response_carries_info demoEnv hostCompileSpawnThrows jobC
           (SpreadError [("code", "ERR_INVALID_ARG_TYPE")] (info demoEnv (language jobC)))).
  - split; [discriminate | reflexivity].
  - reflexivity.
Defined.
